(** * gconda: a shallow embedding of [gconda/gconda.py]

    The module is a handful of straight-line procedures that look names up on
    the search path, start external processes, read one environment variable
    and print.  The embedding keeps the procedures as they are written and
    abstracts the operating system behind a small interface ([OS]).  Every
    interaction with the outside is recorded, in order, in a transcript of
    [Event]s, so that statements such as "no symlink is touched" or "the
    environment is not consulted" become statements about that transcript.

    What the model takes for granted:
    - a program name is started by [subprocess] exactly when the lookup that
      [shutil.which] performs resolves it; a name that does not resolve is a
      [FileNotFoundError];
    - a process that is started runs to completion and reports a return
      code, its output already decoded as text;
    - [str.strip] is taken over the ASCII white space;
    - [condacolab.install()] returns or raises (a restart of the kernel is
      outside the model). *)

From Stdlib Require Import String Ascii List ZArith Bool.
Import ListNotations.
Open Scope string_scope.
Open Scope Z_scope.

(** ** Strings: the pieces of [str], [posixpath] the module relies on *)

Module PyStr.

Definition sep : ascii := "/"%char.

(** [" ".join(xs)] *)
Definition join (xs : list string) : string := String.concat " " xs.

Definition startswith_sep (s : string) : bool :=
  match s with
  | String c _ => Ascii.eqb c sep
  | EmptyString => false
  end.

Fixpoint endswith_sep (s : string) : bool :=
  match s with
  | EmptyString => false
  | String c EmptyString => Ascii.eqb c sep
  | String _ r => endswith_sep r
  end.

(** One round of the loop of [posixpath.join]. *)
Definition join2 (path b : string) : string :=
  if startswith_sep b then b
  else if (path =? "")%string || endswith_sep path then path ++ b
  else path ++ "/" ++ b.

(** [os.path.join(a, *p)] *)
Definition path_join (a : string) (p : list string) : string :=
  fold_left join2 p a.

Fixpoint has_sep (s : string) : bool :=
  match s with
  | EmptyString => false
  | String c r => Ascii.eqb c sep || has_sep r
  end.

(** [p[:p.rfind('/') + 1]] *)
Fixpoint head_part (s : string) : string :=
  match s with
  | EmptyString => ""
  | String c r =>
      if has_sep r then String c (head_part r)
      else if Ascii.eqb c sep then String c "" else ""
  end.

Fixpoint all_sep (s : string) : bool :=
  match s with
  | EmptyString => true
  | String c r => Ascii.eqb c sep && all_sep r
  end.

(** [s.rstrip('/')] *)
Fixpoint rstrip_sep (s : string) : string :=
  match s with
  | EmptyString => ""
  | String c r =>
      let r' := rstrip_sep r in
      if Ascii.eqb c sep && (r' =? "")%string then "" else String c r'
  end.

(** [os.path.dirname(p)] *)
Definition dirname (p : string) : string :=
  let head := head_part p in
  if negb (head =? "")%string && negb (all_sep head)
  then rstrip_sep head else head.

(** The ASCII characters [str.isspace] accepts. *)
Definition is_space (c : ascii) : bool :=
  let n := nat_of_ascii c in
  ((9 <=? n) && (n <=? 13) || (28 <=? n) && (n <=? 32))%nat.

Fixpoint lstrip (s : string) : string :=
  match s with
  | EmptyString => ""
  | String c r => if is_space c then lstrip r else s
  end.

Fixpoint rstrip (s : string) : string :=
  match s with
  | EmptyString => ""
  | String c r =>
      let r' := rstrip r in
      if is_space c && (r' =? "")%string then "" else String c r'
  end.

(** [s.strip()] *)
Definition strip (s : string) : string := rstrip (lstrip s).

(** Truth value of [None] or a string. *)
Definition truthy (o : option string) : bool :=
  match o with
  | Some s => negb (s =? "")%string
  | None => false
  end.

End PyStr.

(** ** Exceptions and process results *)

(** The exceptions that travel through the module.  [EnvironmentError] is
    Python's alias of [OSError]; [FileNotFoundError] carries the message it
    was raised with or, when a program could not be started, the program's
    name.  [ForeignError] stands for whatever third-party code raises;
    [is_Exception] tells whether [except Exception] catches it. *)
Inductive Exn : Type :=
| CalledProcessError (returncode : Z) (cmd : list string)
| FileNotFoundError (detail : string)
| EnvironmentError (msg : string)
| RuntimeError (msg : string)
| IndexError
| ForeignError (is_Exception : bool) (descr : string).

Definition isinstance_CalledProcessError (e : Exn) : bool :=
  match e with CalledProcessError _ _ => true | _ => false end.

Definition isinstance_OSError (e : Exn) : bool :=
  match e with
  | FileNotFoundError _ | EnvironmentError _ => true
  | _ => false
  end.

Definition isinstance_Exception (e : Exn) : bool :=
  match e with
  | ForeignError b _ => b
  | _ => true
  end.

(** [subprocess.CompletedProcess] *)
Record Completed : Type := mkCompleted {
  returncode : Z;
  stdout : string;
  stderr : string
}.

(** ** The operating system, seen from the module *)

(** [os_which] is the executable lookup that both [shutil.which] and the
    [exec] behind [subprocess] perform: a search along [PATH] for a bare name,
    a direct test for a name with a directory part.  It never answers with an
    empty path.  [os_exec] runs an executable that was found, to completion. *)
Class OS (World : Type) : Type := {
  os_which : World -> string -> option string;
  os_exec : World -> string -> list string -> Completed * World;
  os_getenv : World -> string -> option string;
  os_path_exists : World -> string -> bool;
  os_sys_executable : World -> string;
  os_import : World -> string -> option Exn * World;
  os_condacolab_install : World -> option Exn * World;
  os_which_nonempty :
    forall w name p, os_which w name = Some p -> p <> ""%string
}.

(** What [print] receives. *)
Inductive PrintArg : Type :=
| PStr (s : string)
| PExn (e : Exn).

(** One entry of the transcript.  [EvSpawn argv None] is a program that could
    not be started. *)
Inductive Event : Type :=
| EvPrint (args : list PrintArg)
| EvWhich (name : string) (found : option string)
| EvSpawn (argv : list string) (outcome : option Completed)
| EvGetenv (name : string) (value : option string)
| EvExists (path : string) (answer : bool)
| EvImport (module : string)
| EvCondacolabInstall.

Inductive Res (A : Type) : Type :=
| Ok (a : A)
| Raise (e : Exn).
Arguments Ok {A} a.
Arguments Raise {A} e.

Section Monad.

Variable World : Type.

(** A computation: from a world to a result, the world it leaves and the
    events it emitted. *)
Definition M (A : Type) : Type := World -> Res A * World * list Event.

Definition ret {A} (a : A) : M A := fun w => (Ok a, w, []).

Definition raise {A} (e : Exn) : M A := fun w => (Raise e, w, []).

Definition bind {A B} (m : M A) (k : A -> M B) : M B :=
  fun w =>
    match m w with
    | (Ok a, w1, t1) => let '(r, w2, t2) := k a w1 in (r, w2, (t1 ++ t2)%list)
    | (Raise e, w1, t1) => (Raise e, w1, t1)
    end.

(** [try: m  except <class> as e: h e], the class given by [catches]. *)
Definition try_except {A} (m : M A) (catches : Exn -> bool)
           (h : Exn -> M A) : M A :=
  fun w =>
    match m w with
    | (Raise e, w1, t1) =>
        if catches e
        then let '(r, w2, t2) := h e w1 in (r, w2, (t1 ++ t2)%list)
        else (Raise e, w1, t1)
    | done => done
    end.

Definition emit (e : Event) : M unit := fun w => (Ok tt, w, [e]).

End Monad.

Arguments ret {World A} a.
Arguments raise {World A} e.
Arguments bind {World A B} m k.
Arguments try_except {World A} m catches h.
Arguments emit {World} e.

Notation "x <- m ;; k" := (bind m (fun x => k))
  (at level 61, m at next level, right associativity).
Notation "m ;; k" := (bind m (fun _ => k))
  (at level 61, right associativity).

Section Primitives.

Context {World : Type} `{OS World}.

Local Abbreviation M := (M World).

Definition print (args : list PrintArg) : M unit := emit (EvPrint args).

Definition print_str (s : string) : M unit := print [PStr s].

(** [shutil.which(name)] *)
Definition shutil_which (name : string) : M (option string) :=
  fun w => let r := os_which w name in (Ok r, w, [EvWhich name r]).

(** What starting [argv] leads to: nothing when the program is not found. *)
Definition spawn (w : World) (argv : list string)
  : option (Completed * World) :=
  match os_which w (hd "" argv) with
  | Some exe => Some (os_exec w exe argv)
  | None => None
  end.

(** [subprocess.run(argv, check=check)] *)
Definition subprocess_run (check : bool) (argv : list string) : M Completed :=
  fun w =>
    match argv with
    | [] => (Raise IndexError, w, [])
    | prog :: _ =>
        match spawn w argv with
        | None => (Raise (FileNotFoundError prog), w, [EvSpawn argv None])
        | Some (c, w1) =>
            if check && negb (returncode c =? 0)
            then (Raise (CalledProcessError (returncode c) argv), w1,
                  [EvSpawn argv (Some c)])
            else (Ok c, w1, [EvSpawn argv (Some c)])
        end
    end.

(** [subprocess.check_output(argv, text=True)] *)
Definition check_output (argv : list string) : M string :=
  c <- subprocess_run true argv ;; ret (stdout c).

(** [os.environ.get(name)] *)
Definition os_environ_get (name : string) : M (option string) :=
  fun w => let r := os_getenv w name in (Ok r, w, [EvGetenv name r]).

(** [os.path.exists(path)] *)
Definition path_exists (path : string) : M bool :=
  fun w => let r := os_path_exists w path in (Ok r, w, [EvExists path r]).

(** [sys.executable] *)
Definition sys_executable : M string :=
  fun w => (Ok (os_sys_executable w), w, []).

(** [import condacolab] *)
Definition import_module (name : string) : M unit :=
  fun w =>
    match os_import w name with
    | (None, w1) => (Ok tt, w1, [EvImport name])
    | (Some e, w1) => (Raise e, w1, [EvImport name])
    end.

(** [condacolab.install()] *)
Definition condacolab_install : M unit :=
  fun w =>
    match os_condacolab_install w with
    | (None, w1) => (Ok tt, w1, [EvCondacolabInstall])
    | (Some e, w1) => (Raise e, w1, [EvCondacolabInstall])
    end.

End Primitives.

(** ** The module's functions *)

Section Functions.

Context {World : Type} `{OS World}.

Local Abbreviation M := (M World).

Definition conda_version_cmd : list string := ["conda"; "--version"].

Definition python_version_cmd : list string := ["python"; "--version"].

Definition conda_info_base_cmd : list string := ["conda"; "info"; "--base"].

Definition check_conda : M bool :=
  conda_path <- shutil_which "conda" ;;
  if PyStr.truthy conda_path then
    try_except
      (out <- check_output conda_version_cmd ;;
       let version := PyStr.strip out in
       print_str ("✅ Conda is installed. Version: " ++ version) ;;
       ret true)
      isinstance_CalledProcessError
      (fun _ =>
         print_str "⚠️ Conda is installed, but the version could not be retrieved." ;;
         ret true)
  else
    print_str "❌ Conda is not installed." ;;
    ret false.

Definition check_python : M bool :=
  found <- shutil_which "python" ;;
  python_path <- (if PyStr.truthy found then ret found
                  else shutil_which "python3") ;;
  if PyStr.truthy python_path then
    try_except
      (out <- check_output python_version_cmd ;;
       let version := PyStr.strip out in
       print_str ("✅ Python is installed. Version: " ++ version) ;;
       ret true)
      isinstance_CalledProcessError
      (fun _ => ret true)
  else
    print_str "❌ Python is not installed." ;;
    ret false.

Definition pip_install_condacolab_cmd (executable : string) : list string :=
  [executable; "-m"; "pip"; "install"; "-q"; "condacolab"].

Definition install_conda : M unit :=
  present <- check_conda ;;
  if present then
    print_str "✅ Conda is already installed."
  else
    print_str "ℹ️  Conda not found. Installing condacolab to install Conda..." ;;
    try_except
      (executable <- sys_executable ;;
       subprocess_run true (pip_install_condacolab_cmd executable) ;;
       ret tt)
      isinstance_CalledProcessError
      (fun e =>
         print [PStr "❌ Error installing condacolab:"; PExn e] ;;
         raise e) ;;
    try_except
      (import_module "condacolab" ;;
       condacolab_install ;;
       print_str "✅ Conda installation complete!")
      isinstance_Exception
      (fun e =>
         print [PStr "❌ Error during condacolab.install():"; PExn e] ;;
         raise e).

Definition remove_cmd (path : string) : list string :=
  ["sudo"; "rm"; "-f"; path].

Definition still_broken_msg : string :=
  "❌ Error: Conda is still not functioning! Please review the installation process.".

Definition fix_conda : M unit :=
  conda_path <- shutil_which "conda" ;;
  match conda_path with
  | Some path =>
      if negb (PyStr.truthy conda_path) then
        print_str "❌ Conda not found! Installing Conda..." ;;
        install_conda
      else
        print_str ("ℹ️  Conda found at: " ++ path) ;;
        working <-
          try_except
            (subprocess_run true conda_version_cmd ;;
             print_str "✅ Conda is working properly!" ;;
             ret true)
            isinstance_CalledProcessError
            (fun _ =>
               print_str "⚠️  Error: Conda is not functioning properly. Attempting to fix..." ;;
               ret false) ;;
        if working then ret tt
        else
          print_str "🔧 Removing the problematic Conda..." ;;
          subprocess_run true (remove_cmd path) ;;
          print_str "🔄 Reinstalling Conda..." ;;
          install_conda ;;
          try_except
            (subprocess_run true conda_version_cmd ;;
             print_str "✅ Conda has been repaired successfully!")
            isinstance_CalledProcessError
            (fun _ => print_str still_broken_msg)
  | None =>
      print_str "❌ Conda not found! Installing Conda..." ;;
      install_conda
  end.

Definition create_cmd (python_version env_name : string) : list string :=
  ["conda"; "create"; "-n"; env_name; "python=" ++ python_version;
   "ipython"; "-y"].

(** The base directory of the package manager, or the query's failure
    logged and raised again: the [try] block that [setup_env] (lines
    170-174) and [run_library_command] (lines 234-238) both contain. *)
Definition query_base_dir : M string :=
  try_except
    (out <- check_output conda_info_base_cmd ;; ret (PyStr.strip out))
    isinstance_CalledProcessError
    (fun e =>
       print [PStr "❌ Unable to determine Conda base directory:"; PExn e] ;;
       raise e).

Definition new_python (base_dir env_name : string) : string :=
  PyStr.path_join base_dir ["envs"; env_name; "bin"; "python3"].

Definition new_pip (base_dir env_name : string) : string :=
  PyStr.path_join base_dir ["envs"; env_name; "bin"; "pip"].

Definition link_cmd (target name : string) : list string :=
  ["sudo"; "ln"; "-sf"; target; name].

(** The list [commands] of [setup_env]. *)
Definition relink_commands (base_dir env_name python_path : string)
  : list (list string) :=
  let python_dir := PyStr.dirname python_path in
  [ remove_cmd python_path;
    remove_cmd (PyStr.path_join python_dir ["python3"]);
    remove_cmd (PyStr.path_join python_dir ["pip"]);
    link_cmd (new_python base_dir env_name) python_path;
    link_cmd (new_python base_dir env_name)
             (PyStr.path_join python_dir ["python3"]);
    link_cmd (new_pip base_dir env_name)
             (PyStr.path_join python_dir ["pip"]) ].

Definition command_failed_msg (cmd : list string) : string :=
  "Command " ++ PyStr.join cmd ++ " failed.".

(** The loop [for cmd in commands] of [setup_env]. *)
Fixpoint run_commands (commands : list (list string)) : M unit :=
  match commands with
  | [] => ret tt
  | cmd :: rest =>
      print [PStr "➡️  Executing command:"; PStr (PyStr.join cmd)] ;;
      res <- subprocess_run false cmd ;;
      if negb (returncode res =? 0) then
        print [PStr "❌ Error executing command:"; PStr (PyStr.join cmd)] ;;
        print [PStr "stderr:"; PStr (stderr res)] ;;
        raise (RuntimeError (command_failed_msg cmd))
      else run_commands rest
  end.

Definition create_failed_msg : string := "Failed to create Conda environment.".

Definition setup_env (python_version env_name : string) : M unit :=
  present <- check_conda ;;
  (if negb present then
     print_str "❌ Conda is not installed. Please run install_conda() and try again." ;;
     print_str "ℹ️  Automatically calling install_conda() to install Conda..." ;;
     print_str "ℹ️  Note: This process may restart the kernel. If the environment is not set up, please run setup_env again." ;;
     install_conda
   else ret tt) ;;
  print_str ("🚀 Creating new Conda environment '" ++ env_name
             ++ "' with Python " ++ python_version ++ "...") ;;
  result <- subprocess_run false (create_cmd python_version env_name) ;;
  (if negb (returncode result =? 0) then
     print_str "❌ Error creating Conda environment:" ;;
     print_str (stderr result) ;;
     raise (RuntimeError create_failed_msg)
   else
     print_str ("✅ Environment '" ++ env_name ++ "' created successfully!")) ;;
  base_dir <- query_base_dir ;;
  found <- shutil_which "python" ;;
  match found with
  | None => raise (EnvironmentError "❌ Python executable not found in PATH.")
  | Some python_path =>
      print_str "🔧 Updating symbolic links for python and pip (requires sudo privileges)..." ;;
      run_commands (relink_commands base_dir env_name python_path) ;;
      print_str "✅ Symbolic links updated successfully!" ;;
      print_str "ℹ️  Verifying updated python and pip versions:" ;;
      subprocess_run false python_version_cmd ;;
      subprocess_run false ["pip"; "--version"] ;;
      print_str ("🎉 Python environment switched to '" ++ env_name
                 ++ "' successfully!")
  end.

(** The body of [setup_env] cut into its four phases; that they compose
    to [setup_env] is [setup_env_phases] below. *)

(** Lines 153-157: make sure conda is there. *)
Definition ensure_conda : M unit :=
  present <- check_conda ;;
  if negb present then
    print_str "❌ Conda is not installed. Please run install_conda() and try again." ;;
    print_str "ℹ️  Automatically calling install_conda() to install Conda..." ;;
    print_str "ℹ️  Note: This process may restart the kernel. If the environment is not set up, please run setup_env again." ;;
    install_conda
  else ret tt.

(** Lines 159-167: create the environment. *)
Definition create_env (python_version env_name : string) : M unit :=
  print_str ("🚀 Creating new Conda environment '" ++ env_name
             ++ "' with Python " ++ python_version ++ "...") ;;
  result <- subprocess_run false (create_cmd python_version env_name) ;;
  if negb (returncode result =? 0) then
    print_str "❌ Error creating Conda environment:" ;;
    print_str (stderr result) ;;
    raise (RuntimeError create_failed_msg)
  else
    print_str ("✅ Environment '" ++ env_name ++ "' created successfully!").

(** Lines 186-208: swap the links and show the versions. *)
Definition relink (env_name base_dir python_path : string) : M unit :=
  print_str "🔧 Updating symbolic links for python and pip (requires sudo privileges)..." ;;
  run_commands (relink_commands base_dir env_name python_path) ;;
  print_str "✅ Symbolic links updated successfully!" ;;
  print_str "ℹ️  Verifying updated python and pip versions:" ;;
  subprocess_run false python_version_cmd ;;
  subprocess_run false ["pip"; "--version"] ;;
  print_str ("🎉 Python environment switched to '" ++ env_name
             ++ "' successfully!").

(** Lines 169-208: find the base directory and [python], then [relink]. *)
Definition locate_and_relink (env_name : string) : M unit :=
  base_dir <- query_base_dir ;;
  found <- shutil_which "python" ;;
  match found with
  | None => raise (EnvironmentError "❌ Python executable not found in PATH.")
  | Some python_path => relink env_name base_dir python_path
  end.

Definition env_unset_msg : string :=
  "❌ Current Conda environment could not be determined (CONDA_DEFAULT_ENV is not set). "
  ++ "Please activate the desired environment.".

Definition env_bin (base_dir current_env : string) : string :=
  PyStr.path_join base_dir ["envs"; current_env; "bin"].

Definition cmd_path (base_dir current_env cmd_name : string) : string :=
  PyStr.path_join (env_bin base_dir current_env) [cmd_name].

Definition not_in_env_msg (cmd_name current_env bin : string) : string :=
  "❌ Command " ++ cmd_name ++ " not found in environment " ++ current_env
  ++ " at " ++ bin ++ ".".

Definition run_library_command (cmd_name : string) (args : list string)
  : M unit :=
  let full_cmd := cmd_name :: args in
  print [PStr "🚀 Attempting to run command:"; PStr (PyStr.join full_cmd)] ;;
  on_path <- shutil_which cmd_name ;;
  if PyStr.truthy on_path then
    subprocess_run false full_cmd ;;
    ret tt
  else
    base_dir <- query_base_dir ;;
    current_env <- os_environ_get "CONDA_DEFAULT_ENV" ;;
    match current_env with
    | Some env =>
        if negb (PyStr.truthy current_env) then
          print_str env_unset_msg ;;
          raise (EnvironmentError env_unset_msg)
        else
          let path := cmd_path base_dir env cmd_name in
          present <- path_exists path ;;
          if present then
            print_str ("🚀 Running command from " ++ path) ;;
            subprocess_run false (path :: args) ;;
            ret tt
          else
            let err_msg :=
              not_in_env_msg cmd_name env (env_bin base_dir env) in
            print_str err_msg ;;
            raise (FileNotFoundError err_msg)
    | None =>
        print_str env_unset_msg ;;
        raise (EnvironmentError env_unset_msg)
    end.

End Functions.

(** ** Reading a transcript *)

(** The programs that were started (or tried), in order. *)
Fixpoint spawned (evs : list Event) : list (list string) :=
  match evs with
  | [] => []
  | EvSpawn argv _ :: rest => argv :: spawned rest
  | _ :: rest => spawned rest
  end.

(** The first line [run_library_command] prints. *)
Definition attempt_event (cmd_name : string) (args : list string) : Event :=
  EvPrint [PStr "🚀 Attempting to run command:";
           PStr (PyStr.join (cmd_name :: args))].

(** Does the transcript read the process environment? *)
Definition reads_env (evs : list Event) : bool :=
  existsb (fun e => match e with EvGetenv _ _ => true | _ => false end) evs.

(** Does the transcript test a path of the filesystem? *)
Definition probes_files (evs : list Event) : bool :=
  existsb (fun e => match e with EvExists _ _ => true | _ => false end) evs.

(** [sudo rm ...] and [sudo ln ...]: the commands that change symlinks. *)
Definition is_symlink_mutation (argv : list string) : bool :=
  match argv with
  | prog :: verb :: _ =>
      (prog =? "sudo")%string && ((verb =? "rm")%string || (verb =? "ln")%string)
  | _ => false
  end.

Definition symlink_mutations (evs : list Event) : list (list string) :=
  filter is_symlink_mutation (spawned evs).

(** ** The runs of [setup_env], as transcripts *)

(** What the first phase of [setup_env] (probing for conda and, if absent,
    installing it) may emit. *)
Definition prelude_event (e : Event) : Prop :=
  match e with
  | EvPrint _ | EvImport _ | EvCondacolabInstall => True
  | EvWhich name _ => name = "conda"%string
  | EvSpawn argv _ =>
      argv = conda_version_cmd
      \/ exists exe, argv = pip_install_condacolab_cmd exe
  | EvGetenv _ _ | EvExists _ _ => False
  end.

Definition announce (cmd : list string) : Event :=
  EvPrint [PStr "➡️  Executing command:"; PStr (PyStr.join cmd)].

Definition report_failure (cmd : list string) (c : Completed) : list Event :=
  [EvPrint [PStr "❌ Error executing command:"; PStr (PyStr.join cmd)];
   EvPrint [PStr "stderr:"; PStr (stderr c)]].

(** The ways the loop over [commands] can go: to the end, every command
    exiting with zero; stopped by a command that exits with another code;
    stopped by a command that cannot be started. *)
Inductive LoopRun : list (list string) -> Res unit -> list Event -> Prop :=
| loop_done :
    LoopRun [] (Ok tt) []
| loop_next cmd rest c r t :
    returncode c = 0 ->
    LoopRun rest r t ->
    LoopRun (cmd :: rest) r (announce cmd :: EvSpawn cmd (Some c) :: t)
| loop_failed cmd rest c :
    returncode c <> 0 ->
    LoopRun (cmd :: rest) (Raise (RuntimeError (command_failed_msg cmd)))
            (announce cmd :: EvSpawn cmd (Some c) :: report_failure cmd c)
| loop_not_started prog args rest :
    LoopRun ((prog :: args) :: rest) (Raise (FileNotFoundError prog))
            [announce (prog :: args); EvSpawn (prog :: args) None]
| loop_no_program rest :
    LoopRun ([] :: rest) (Raise IndexError) [announce []].

(** What the loop emits: announcements and the commands of its list. *)
Definition loop_event (cmds : list (list string)) (e : Event) : Prop :=
  match e with
  | EvPrint _ => True
  | EvSpawn argv _ => In argv cmds
  | _ => False
  end.

(** All of a transcript's processes that satisfy [sel] exited with zero. *)
Definition all_zero (sel : list string -> bool) (t : list Event) : Prop :=
  forall argv o,
    In (EvSpawn argv o) t -> sel argv = true ->
    exists c, o = Some c /\ returncode c = 0.

(** What the two version queries that close [setup_env] may emit. *)
Definition verify_event (e : Event) : Prop :=
  match e with
  | EvPrint _ => True
  | EvSpawn argv _ => argv = python_version_cmd \/ argv = ["pip"; "--version"]
  | _ => False
  end.

Definition base_dir_failure (c : Completed) : Event :=
  EvPrint [PStr "❌ Unable to determine Conda base directory:";
           PExn (CalledProcessError (returncode c) conda_info_base_cmd)].

Definition updating_links : Event :=
  EvPrint [PStr "🔧 Updating symbolic links for python and pip (requires sudo privileges)..."].

(** The ways [setup_env] can go once the environment is created. *)
Inductive AfterCreation (env_name : string)
  : Res unit -> list Event -> Prop :=
| base_not_started :
    AfterCreation env_name (Raise (FileNotFoundError "conda"))
                  [EvSpawn conda_info_base_cmd None]
| base_failed c :
    returncode c <> 0 ->
    AfterCreation env_name
                  (Raise (CalledProcessError (returncode c) conda_info_base_cmd))
                  [EvSpawn conda_info_base_cmd (Some c); base_dir_failure c]
| python_missing c :
    returncode c = 0 ->
    AfterCreation env_name
                  (Raise (EnvironmentError "❌ Python executable not found in PATH."))
                  [EvSpawn conda_info_base_cmd (Some c); EvWhich "python" None]
| relink_stopped c python_path e t :
    returncode c = 0 ->
    LoopRun (relink_commands (PyStr.strip (stdout c)) env_name python_path)
            (Raise e) t ->
    AfterCreation env_name (Raise e)
                  (EvSpawn conda_info_base_cmd (Some c)
                   :: EvWhich "python" (Some python_path)
                   :: updating_links :: t)
| relinked c python_path t r t' :
    returncode c = 0 ->
    LoopRun (relink_commands (PyStr.strip (stdout c)) env_name python_path)
            (Ok tt) t ->
    Forall verify_event t' ->
    AfterCreation env_name r
                  (EvSpawn conda_info_base_cmd (Some c)
                   :: EvWhich "python" (Some python_path)
                   :: updating_links :: t ++ t').

Definition creating (python_version env_name : string) : Event :=
  EvPrint [PStr ("🚀 Creating new Conda environment '" ++ env_name
                 ++ "' with Python " ++ python_version ++ "...")].

Definition creation_failure (c : Completed) : list Event :=
  [EvPrint [PStr "❌ Error creating Conda environment:"];
   EvPrint [PStr (stderr c)]].

Definition created (env_name : string) : Event :=
  EvPrint [PStr ("✅ Environment '" ++ env_name ++ "' created successfully!")].

(** The ways a whole call of [setup_env] can go. *)
Inductive SetupRun (python_version env_name : string)
  : Res unit -> list Event -> Prop :=
| setup_no_conda e t :
    Forall prelude_event t ->
    SetupRun python_version env_name (Raise e) t
| setup_create_not_started t :
    Forall prelude_event t ->
    SetupRun python_version env_name (Raise (FileNotFoundError "conda"))
             (t ++ [creating python_version env_name;
                    EvSpawn (create_cmd python_version env_name) None])
| setup_create_failed t c :
    Forall prelude_event t ->
    returncode c <> 0 ->
    SetupRun python_version env_name (Raise (RuntimeError create_failed_msg))
             (t ++ creating python_version env_name
                :: EvSpawn (create_cmd python_version env_name) (Some c)
                :: creation_failure c)
| setup_created t c r t' :
    Forall prelude_event t ->
    returncode c = 0 ->
    AfterCreation env_name r t' ->
    SetupRun python_version env_name r
             (t ++ creating python_version env_name
                :: EvSpawn (create_cmd python_version env_name) (Some c)
                :: created env_name :: t').

(** ** A small concrete system, for running the functions *)

Module Toy.

(** [on_path] maps a bare name to the file the search path gives it,
    [files] lists what exists, [exits] scripts the result of a command line
    (anything else exits with 0 and no output). *)
Record world : Type := mkWorld {
  on_path : list (string * string);
  environ : list (string * string);
  files : list string;
  exits : list (list string * Completed);
  condacolab_raises : option Exn
}.

Fixpoint assoc {A} (k : string) (l : list (string * A)) : option A :=
  match l with
  | [] => None
  | (k', v) :: rest => if (k =? k')%string then Some v else assoc k rest
  end.

Definition mem (p : string) (l : list string) : bool :=
  existsb (String.eqb p) l.

Definition which (w : world) (name : string) : option string :=
  let candidate :=
    if PyStr.has_sep name then Some name else assoc name (on_path w) in
  match candidate with
  | Some p => if negb (p =? "")%string && mem p (files w) then Some p else None
  | None => None
  end.

Fixpoint scripted (argv : list string) (l : list (list string * Completed))
  : Completed :=
  match l with
  | [] => mkCompleted 0 "" ""
  | (k, c) :: rest =>
      if list_eq_dec string_dec argv k then c else scripted argv rest
  end.

Definition remove_file (p : string) (w : world) : world :=
  mkWorld (on_path w) (environ w)
          (filter (fun q => negb (q =? p)%string) (files w))
          (exits w) (condacolab_raises w).

Definition add_file (p : string) (w : world) : world :=
  mkWorld (on_path w) (environ w) (p :: files w) (exits w)
          (condacolab_raises w).

(** A successful [sudo rm -f p] removes [p], a successful
    [sudo ln -sf t n] leaves a file [n]. *)
Definition effect (argv : list string) (w : world) : world :=
  match argv with
  | ["sudo"; "rm"; "-f"; p] => remove_file p w
  | ["sudo"; "ln"; "-sf"; _; n] => add_file n (remove_file n w)
  | _ => w
  end.

Definition conda_file : string := "/usr/local/bin/conda".

Definition exec (w : world) (exe : string) (argv : list string)
  : Completed * world :=
  let c := scripted argv (exits w) in
  (c, if returncode c =? 0 then effect argv w else w).

(** [condacolab.install()], when it does not raise, leaves a conda binary. *)
Definition install (w : world) : option Exn * world :=
  match condacolab_raises w with
  | None => (None, add_file conda_file w)
  | Some e => (Some e, w)
  end.

#[global] Instance toy_os : OS world.
Proof.
  refine {|
    os_which := which;
    os_exec := exec;
    os_getenv := fun w name => assoc name (environ w);
    os_path_exists := fun w p => mem p (files w);
    os_sys_executable := fun _ => "/usr/bin/python3";
    os_import := fun w _ => (None, w);
    os_condacolab_install := install
  |}.
  intros w name p. unfold which.
  destruct (if PyStr.has_sep name then Some name else assoc name (on_path w))
    as [q|]; [|discriminate].
  destruct (q =? "")%string eqn:E; cbn; [discriminate|].
  destruct (mem q (files w)); [|discriminate].
  intros [= <-]. now apply String.eqb_neq.
Defined.

(** *** Some machines *)

Definition nl : string := String (ascii_of_nat 10) "".

(** Nothing installed, nothing on the search path. *)
Definition bare : world := mkWorld [] [] [] [] None.

(** What [conda info --base] prints there. *)
Definition base_answer : Completed := mkCompleted 0 ("/usr/local" ++ nl) "".

(** A notebook host with conda, python, pip and sudo in place. *)
Definition colab : world :=
  mkWorld
    [("conda", conda_file); ("python", "/usr/local/bin/python");
     ("python3", "/usr/local/bin/python3"); ("pip", "/usr/local/bin/pip");
     ("sudo", "/usr/bin/sudo"); ("ls", "/bin/ls")]
    []
    [conda_file; "/usr/local/bin/python"; "/usr/local/bin/python3";
     "/usr/local/bin/pip"; "/usr/bin/sudo"; "/bin/ls"; "/usr/bin/python3"]
    [(conda_info_base_cmd, base_answer)]
    None.

(** [w], where the command line [argv] ends as [c] says. *)
Definition script (argv : list string) (c : Completed) (w : world) : world :=
  mkWorld (on_path w) (environ w) (files w) ((argv, c) :: exits w)
          (condacolab_raises w).

Definition setenv (name value : string) (w : world) : world :=
  mkWorld (on_path w) ((name, value) :: environ w) (files w) (exits w)
          (condacolab_raises w).

Definition broken : Completed := mkCompleted 1 "" "ModuleNotFoundError".

(** conda and python are there, their version queries fail. *)
Definition degraded : world :=
  script conda_version_cmd broken (script python_version_cmd broken colab).

(** Only [python3] is on the search path. *)
Definition only_python3 : world :=
  mkWorld
    [("conda", conda_file); ("python3", "/usr/local/bin/python3")]
    [] (files colab) (exits colab) None.

(** The query of the base directory fails. *)
Definition info_fails : world := script conda_info_base_cmd broken colab.

(** The creation of the environment [gconda] fails. *)
Definition create_fails : world :=
  script (create_cmd "3.10" "gconda") (mkCompleted 1 "" "PackagesNotFound")
         colab.

Definition colab_python : string := "/usr/local/bin/python".

Definition gconda_python : string := "/usr/local/envs/gconda/bin/python3".

Definition denied : Completed := mkCompleted 1 "" "Permission denied".

(** The fourth relinking command, the first [ln], is refused. *)
Definition link_denied : world :=
  script (link_cmd gconda_python colab_python) denied colab.

Definition gconda_gdown : string := "/usr/local/envs/gconda/bin/gdown".

(** The environment [gconda] is active and holds [gdown], which exits
    with 3. *)
Definition activated : world :=
  script [gconda_gdown; "--version"] (mkCompleted 3 "" "")
         (setenv "CONDA_DEFAULT_ENV" "gconda" (add_file gconda_gdown colab)).

(** [CONDA_DEFAULT_ENV] is set, to the empty string. *)
Definition env_empty : world := setenv "CONDA_DEFAULT_ENV" "" colab.

(** [ls -l] exits with 2. *)
Definition ls_fails : world := script ["ls"; "-l"] (mkCompleted 2 "" "") colab.

(** *** More machines *)

(** The notebook host before conda is installed. *)
Definition uninstalled : world := remove_file conda_file colab.

Definition pip_condacolab : list string :=
  pip_install_condacolab_cmd "/usr/bin/python3".

(** No conda, and [pip] cannot install condacolab. *)
Definition pip_fails : world := script pip_condacolab broken uninstalled.

Definition kernel_error : Exn := ForeignError true "RuntimeError".

(** No conda, and [condacolab.install()] raises. *)
Definition install_raises : world :=
  mkWorld (on_path uninstalled) (environ uninstalled) (files uninstalled)
          (exits uninstalled) (Some kernel_error).

(** conda is broken and [sudo rm] is refused. *)
Definition rm_denied : world := script (remove_cmd conda_file) denied degraded.




(** [pip --version] fails, also after the relinking. *)
Definition pip_check_fails : world := script ["pip"; "--version"] broken colab.

End Toy.

(** ** Transcripts of the installer and of the repair *)

(** What [install_conda] emits before it starts [pip], conda being absent. *)
Definition install_prefix : list Event :=
  [EvWhich "conda" None;
   EvPrint [PStr "❌ Conda is not installed."];
   EvPrint [PStr "ℹ️  Conda not found. Installing condacolab to install Conda..."]].


Definition install_complete : Event :=
  EvPrint [PStr "✅ Conda installation complete!"].


Definition conda_not_found : Event :=
  EvPrint [PStr "❌ Conda not found! Installing Conda..."].

Definition conda_found_at (path : string) : Event :=
  EvPrint [PStr ("ℹ️  Conda found at: " ++ path)].

Definition conda_broken : Event :=
  EvPrint [PStr "⚠️  Error: Conda is not functioning properly. Attempting to fix..."].

Definition removing_conda : Event :=
  EvPrint [PStr "🔧 Removing the problematic Conda..."].

(** ** Events of the later phases of [setup_env] *)

(** An event that neither the probing for conda nor the creation of the
    environment can emit. *)
Definition late_event (python_version env_name : string) (e : Event) : Prop :=
  ~ prelude_event e
  /\ match e with
     | EvPrint _ => False
     | EvSpawn argv _ => argv <> create_cmd python_version env_name
     | _ => True
     end.

Definition python_not_found : Exn :=
  EnvironmentError "❌ Python executable not found in PATH.".

(** ** The string functions on a few paths *)

Example dirname_of_python :
  PyStr.dirname "/usr/local/bin/python" = "/usr/local/bin"%string.
Proof. reflexivity. Qed.

Example dirname_of_bare_name : PyStr.dirname "python" = ""%string.
Proof. reflexivity. Qed.

Example dirname_at_root : PyStr.dirname "/python" = "/"%string.
Proof. reflexivity. Qed.

Example path_join_env_bin :
  PyStr.path_join "/usr/local" ["envs"; "gconda"; "bin"; "pip"]
  = "/usr/local/envs/gconda/bin/pip"%string.
Proof. reflexivity. Qed.

Example path_join_absolute_wins :
  PyStr.path_join "/usr/local" ["envs"; "/opt/env"; "bin"]
  = "/opt/env/bin"%string.
Proof. reflexivity. Qed.

Example path_join_empty_directory :
  PyStr.path_join "" ["python3"] = "python3"%string.
Proof. reflexivity. Qed.

Example strip_base_answer :
  PyStr.strip (stdout Toy.base_answer) = "/usr/local"%string.
Proof. reflexivity. Qed.

Example join_command :
  PyStr.join ["sudo"; "rm"; "-f"; "/usr/local/bin/pip"]
  = "sudo rm -f /usr/local/bin/pip"%string.
Proof. reflexivity. Qed.

(** ** Properties *)

Section Properties.

Context {World : Type} `{OS World}.

Implicit Types (w : World) (evs : list Event).

Arguments subprocess_run : simpl never.
Arguments PyStr.truthy : simpl never.
Arguments query_base_dir : simpl never.
Arguments check_conda : simpl never.
Arguments install_conda : simpl never.
Arguments cmd_path : simpl never.
Arguments env_bin : simpl never.
Arguments not_in_env_msg : simpl never.
Arguments command_failed_msg : simpl never.
Arguments PyStr.join : simpl never.
Arguments PyStr.strip : simpl never.
Arguments String.append : simpl never.

(** Open the monadic combinators of a function body. *)
Ltac unfold_m :=
  unfold check_output, print_str; unfold print;
  unfold bind, try_except, shutil_which, os_environ_get, path_exists,
    emit, ret, raise.

Lemma truthy_found w name p :
  os_which w name = Some p -> PyStr.truthy (os_which w name) = true.
Proof.
  intros E. rewrite E. unfold PyStr.truthy.
  destruct (p =? "")%string eqn:Ep; [|reflexivity].
  apply String.eqb_eq in Ep. now apply os_which_nonempty in E.
Qed.

Lemma truthy_some w name p :
  os_which w name = Some p -> PyStr.truthy (Some p) = true.
Proof. intros E. rewrite <- E. now apply truthy_found with p. Qed.

(** Use a successful lookup [E] wherever the goal waits for it. *)
Ltac found E :=
  repeat (progress (rewrite ?E, ?(truthy_some _ _ _ E); cbn)).

(** Use a failed lookup [E] wherever the goal waits for it. *)
Ltac missing E :=
  repeat (progress (rewrite ?E; change (PyStr.truthy None) with false; cbn)).

Lemma spawn_found w name args p :
  os_which w name = Some p ->
  spawn w (name :: args) = Some (os_exec w p (name :: args)).
Proof. intros E. unfold spawn. cbn. now rewrite E. Qed.

Lemma spawn_missing w name args :
  os_which w name = None -> spawn w (name :: args) = None.
Proof. intros E. unfold spawn. cbn. now rewrite E. Qed.

(** *** [subprocess.run], case by case *)

Lemma run_completed w prog args c w1 :
  spawn w (prog :: args) = Some (c, w1) ->
  subprocess_run false (prog :: args) w
  = (Ok c, w1, [EvSpawn (prog :: args) (Some c)]).
Proof. intros E. unfold subprocess_run. now rewrite E. Qed.

Lemma run_checked_zero w prog args c w1 :
  spawn w (prog :: args) = Some (c, w1) ->
  returncode c = 0 ->
  subprocess_run true (prog :: args) w
  = (Ok c, w1, [EvSpawn (prog :: args) (Some c)]).
Proof. intros E Z0. unfold subprocess_run. now rewrite E, Z0. Qed.

Lemma run_checked_nonzero w prog args c w1 :
  spawn w (prog :: args) = Some (c, w1) ->
  returncode c <> 0 ->
  subprocess_run true (prog :: args) w
  = (Raise (CalledProcessError (returncode c) (prog :: args)), w1,
     [EvSpawn (prog :: args) (Some c)]).
Proof.
  intros E NZ. unfold subprocess_run. rewrite E.
  apply Z.eqb_neq in NZ. now rewrite NZ.
Qed.

Lemma run_not_started check w prog args :
  spawn w (prog :: args) = None ->
  subprocess_run check (prog :: args) w
  = (Raise (FileNotFoundError prog), w, [EvSpawn (prog :: args) None]).
Proof. intros E. unfold subprocess_run. now rewrite E. Qed.

(** C7. A probe whose executable names resolve to nothing on the search
    path reports absence and returns [False]; nothing is raised.  For
    [check_conda] the name is [conda], for [check_python] the names are
    [python] and [python3]. *)
Theorem probes_report_absence w :
  (os_which w "conda" = None ->
   check_conda w
   = (Ok false, w,
      [EvWhich "conda" None; EvPrint [PStr "❌ Conda is not installed."]]))
  /\
  (os_which w "python" = None ->
   os_which w "python3" = None ->
   check_python w
   = (Ok false, w,
      [EvWhich "python" None; EvWhich "python3" None;
       EvPrint [PStr "❌ Python is not installed."]])).
Proof.
  split.
  - intros E. unfold check_conda; unfold_m. now missing E.
  - intros E E3. unfold check_python; unfold_m. missing E. now missing E3.
Qed.

(** C6. When the probed executable is found on the search path and the
    version query runs but exits with a non-zero code, the probe returns
    [True]: [check_conda] after printing a warning, [check_python]
    silently. *)
Theorem probes_degraded_still_true w p c w1 :
  returncode c <> 0 ->
  (os_which w "conda" = Some p ->
   spawn w conda_version_cmd = Some (c, w1) ->
   check_conda w
   = (Ok true, w1,
      [EvWhich "conda" (Some p); EvSpawn conda_version_cmd (Some c);
       EvPrint [PStr "⚠️ Conda is installed, but the version could not be retrieved."]]))
  /\
  (os_which w "python" = Some p \/ os_which w "python3" = Some p ->
   spawn w python_version_cmd = Some (c, w1) ->
   check_python w
   = (Ok true, w1,
      [EvWhich "python" (os_which w "python");
       EvSpawn python_version_cmd (Some c)])).
Proof.
  intros NZ. split.
  - intros E S.
    unfold check_conda; unfold_m. found E.
    unfold conda_version_cmd in *.
    now rewrite (run_checked_nonzero _ _ _ _ _ S NZ).
  - intros _ S.
    destruct (os_which w "python") as [q|] eqn:E.
    2:{ unfold python_version_cmd in S.
        now rewrite (spawn_missing _ _ _ E) in S. }
    unfold check_python; unfold_m. found E.
    unfold python_version_cmd in *.
    now rewrite (run_checked_nonzero _ _ _ _ _ S NZ).
Qed.


Lemma truthy_nonempty (s : string) :
  s <> ""%string -> PyStr.truthy (Some s) = true.
Proof.
  intros NE. unfold PyStr.truthy.
  apply String.eqb_neq in NE. now rewrite NE.
Qed.

(** The query of the base directory, when it exits with zero. *)
Lemma query_base_dir_ok w c w1 :
  spawn w conda_info_base_cmd = Some (c, w1) ->
  returncode c = 0 ->
  query_base_dir w
  = (Ok (PyStr.strip (stdout c)), w1,
     [EvSpawn conda_info_base_cmd (Some c)]).
Proof.
  intros S Z0. unfold query_base_dir; unfold_m.
  unfold conda_info_base_cmd in *.
  now rewrite (run_checked_zero _ _ _ _ _ S Z0).
Qed.

(** *** [run_library_command], branch by branch *)

Lemma run_direct w cmd_name args p c w1 :
  os_which w cmd_name = Some p ->
  os_exec w p (cmd_name :: args) = (c, w1) ->
  run_library_command cmd_name args w
  = (Ok tt, w1,
     [attempt_event cmd_name args; EvWhich cmd_name (Some p);
      EvSpawn (cmd_name :: args) (Some c)]).
Proof.
  intros E X.
  assert (S : spawn w (cmd_name :: args) = Some (c, w1))
    by now rewrite (spawn_found _ _ _ _ E), X.
  unfold run_library_command; unfold_m. found E.
  now rewrite (run_completed _ _ _ _ _ S).
Qed.

Lemma run_env_unset w cmd_name args c w1 :
  os_which w cmd_name = None ->
  spawn w conda_info_base_cmd = Some (c, w1) ->
  returncode c = 0 ->
  os_getenv w1 "CONDA_DEFAULT_ENV" = None ->
  run_library_command cmd_name args w
  = (Raise (EnvironmentError env_unset_msg), w1,
     [attempt_event cmd_name args; EvWhich cmd_name None;
      EvSpawn conda_info_base_cmd (Some c);
      EvGetenv "CONDA_DEFAULT_ENV" None;
      EvPrint [PStr env_unset_msg]]).
Proof.
  intros E S Z0 G.
  unfold run_library_command; unfold_m. missing E.
  rewrite (query_base_dir_ok _ _ _ S Z0). now rewrite G.
Qed.

(** The fallback, up to the test of the path in the environment. *)
Lemma run_in_env w cmd_name args c w1 env :
  os_which w cmd_name = None ->
  spawn w conda_info_base_cmd = Some (c, w1) ->
  returncode c = 0 ->
  os_getenv w1 "CONDA_DEFAULT_ENV" = Some env ->
  env <> ""%string ->
  let base_dir := PyStr.strip (stdout c) in
  let path := cmd_path base_dir env cmd_name in
  let prefix :=
    [attempt_event cmd_name args; EvWhich cmd_name None;
     EvSpawn conda_info_base_cmd (Some c);
     EvGetenv "CONDA_DEFAULT_ENV" (Some env)] in
  run_library_command cmd_name args w
  = if os_path_exists w1 path then
      match spawn w1 (path :: args) with
      | Some (c2, w2) =>
          (Ok tt, w2,
           prefix ++ [EvExists path true;
                      EvPrint [PStr ("🚀 Running command from " ++ path)];
                      EvSpawn (path :: args) (Some c2)])%list
      | None =>
          (Raise (FileNotFoundError path), w1,
           prefix ++ [EvExists path true;
                      EvPrint [PStr ("🚀 Running command from " ++ path)];
                      EvSpawn (path :: args) None])%list
      end
    else
      let err_msg := not_in_env_msg cmd_name env (env_bin base_dir env) in
      (Raise (FileNotFoundError err_msg), w1,
       prefix ++ [EvExists path false; EvPrint [PStr err_msg]])%list.
Proof.
  intros E S Z0 G NE base_dir path prefix.
  pose proof (truthy_nonempty _ NE) as T.
  unfold run_library_command; unfold_m. missing E.
  rewrite (query_base_dir_ok _ _ _ S Z0), G, T. cbn.
  fold base_dir path.
  destruct (os_path_exists w1 path); [|reflexivity].
  destruct (spawn w1 (path :: args)) as [[c2 w2]|] eqn:S2.
  - now rewrite (run_completed _ _ _ _ _ S2).
  - now rewrite (run_not_started _ _ _ _ S2).
Qed.

(** C3. A command name that resolves on the search path is run directly,
    with the arguments given, and [run_library_command] returns: the
    transcript is the announcement, the lookup and that one process; no
    environment variable is read and the package manager is not asked for
    its base directory. *)
Theorem run_library_command_direct w cmd_name args p c w1 :
  os_which w cmd_name = Some p ->
  os_exec w p (cmd_name :: args) = (c, w1) ->
  run_library_command cmd_name args w
  = (Ok tt, w1,
     [attempt_event cmd_name args; EvWhich cmd_name (Some p);
      EvSpawn (cmd_name :: args) (Some c)])
  /\ reads_env (snd (run_library_command cmd_name args w)) = false
  /\ spawned (snd (run_library_command cmd_name args w))
     = [cmd_name :: args].
Proof.
  intros E X. rewrite (run_direct _ _ _ _ _ _ E X). now repeat split.
Qed.

(** C4, amended.  For a command name that does not resolve on the search
    path: when the query of the base directory succeeds and the process
    environment has no [CONDA_DEFAULT_ENV], [run_library_command] raises
    [EnvironmentError], an [OSError], and never tests a path of the
    filesystem. *)
Theorem run_library_command_no_active_env w cmd_name args c w1 :
  os_which w cmd_name = None ->
  spawn w conda_info_base_cmd = Some (c, w1) ->
  returncode c = 0 ->
  os_getenv w1 "CONDA_DEFAULT_ENV" = None ->
  run_library_command cmd_name args w
  = (Raise (EnvironmentError env_unset_msg), w1,
     [attempt_event cmd_name args; EvWhich cmd_name None;
      EvSpawn conda_info_base_cmd (Some c);
      EvGetenv "CONDA_DEFAULT_ENV" None;
      EvPrint [PStr env_unset_msg]])
  /\ isinstance_OSError (EnvironmentError env_unset_msg) = true
  /\ probes_files (snd (run_library_command cmd_name args w)) = false.
Proof.
  intros E S Z0 G. rewrite (run_env_unset _ _ _ _ _ E S Z0 G).
  now repeat split.
Qed.


(** C10. [run_library_command] never looks at the exit status of the
    command it runs.  Whatever the completed process [c2] reports, the call
    returns normally: for a command found on the search path, and for one
    found and started in the binary directory of the active
    environment. *)
Theorem run_library_command_ignores_exit_status w cmd_name args c2 w2 :
  (forall p,
      os_which w cmd_name = Some p ->
      os_exec w p (cmd_name :: args) = (c2, w2) ->
      fst (run_library_command cmd_name args w) = (Ok tt, w2))
  /\
  (forall c w1 env,
      os_which w cmd_name = None ->
      spawn w conda_info_base_cmd = Some (c, w1) ->
      returncode c = 0 ->
      os_getenv w1 "CONDA_DEFAULT_ENV" = Some env ->
      env <> ""%string ->
      let path := cmd_path (PyStr.strip (stdout c)) env cmd_name in
      os_path_exists w1 path = true ->
      spawn w1 (path :: args) = Some (c2, w2) ->
      fst (run_library_command cmd_name args w) = (Ok tt, w2)).
Proof.
  split.
  - intros p E X. now rewrite (run_direct _ _ _ _ _ _ E X).
  - intros c w1 env E S Z0 G NE path X S2.
    rewrite (run_in_env _ cmd_name args _ _ _ E S Z0 G NE).
    fold path. now rewrite X, S2.
Qed.

(** C8. In a run of [fix_conda] where the [conda] binary is found, the
    first functional check exits with a non-zero code, the removal exits
    with zero, [install_conda] returns, and the version query after it
    exits with a non-zero code again, [fix_conda] prints that conda is
    still broken and returns normally. *)
Theorem fix_conda_logs_final_failure w p c1 w1 c2 w2 w3 evs3 c4 w4 :
  os_which w "conda" = Some p ->
  spawn w conda_version_cmd = Some (c1, w1) ->
  returncode c1 <> 0 ->
  spawn w1 (remove_cmd p) = Some (c2, w2) ->
  returncode c2 = 0 ->
  install_conda w2 = (Ok tt, w3, evs3) ->
  spawn w3 conda_version_cmd = Some (c4, w4) ->
  returncode c4 <> 0 ->
  fix_conda w
  = (Ok tt, w4,
     [EvWhich "conda" (Some p);
      EvPrint [PStr ("ℹ️  Conda found at: " ++ p)];
      EvSpawn conda_version_cmd (Some c1);
      EvPrint [PStr "⚠️  Error: Conda is not functioning properly. Attempting to fix..."];
      EvPrint [PStr "🔧 Removing the problematic Conda..."];
      EvSpawn (remove_cmd p) (Some c2);
      EvPrint [PStr "🔄 Reinstalling Conda..."]]
     ++ evs3
     ++ [EvSpawn conda_version_cmd (Some c4);
         EvPrint [PStr still_broken_msg]])%list.
Proof.
  intros E S1 NZ1 S2 Z2 I S4 NZ4.
  unfold fix_conda; unfold_m. found E.
  unfold conda_version_cmd, remove_cmd in *.
  rewrite (run_checked_nonzero _ _ _ _ _ S1 NZ1). cbn.
  rewrite (run_checked_zero _ _ _ _ _ S2 Z2). cbn.
  rewrite I.
  rewrite (run_checked_nonzero _ _ _ _ _ S4 NZ4). cbn.
  reflexivity.
Qed.

(** *** Transcripts of the first phase *)

Ltac crunch :=
  repeat
    match goal with
    | |- context [match ?x with _ => _ end] =>
        lazymatch x with
        | context [match _ with _ => _ end] => fail
        | _ => destruct x eqn:?
        end
    | |- context [if ?x then _ else _] =>
        lazymatch x with
        | context [match _ with _ => _ end] => fail
        | _ => destruct x eqn:?
        end
    | _ => progress cbn
    end.

Ltac prelude :=
  repeat (apply Forall_app; split);
  repeat (apply Forall_cons || apply Forall_nil);
  cbn; auto;
  first [left; reflexivity | right; eexists; reflexivity].

Lemma check_conda_prelude w :
  Forall prelude_event (snd (check_conda w)).
Proof.
  unfold check_conda; unfold_m.
  unfold subprocess_run, conda_version_cmd.
  crunch; prelude.
Qed.

Lemma install_conda_prelude w :
  Forall prelude_event (snd (install_conda w)).
Proof.
  unfold install_conda; unfold_m.
  pose proof (check_conda_prelude w) as P.
  destruct (check_conda w) as [[r w0] t]. cbn in P.
  unfold import_module, condacolab_install, sys_executable, subprocess_run,
    pip_install_condacolab_cmd.
  crunch; prelude.
Qed.

(** *** The loop over the commands *)

Lemma run_commands_run cmds w :
  LoopRun cmds (fst (fst (run_commands cmds w))) (snd (run_commands cmds w)).
Proof.
  revert w. induction cmds as [|cmd rest IH]; intros w; [constructor|].
  cbn [run_commands]; unfold_m. unfold subprocess_run.
  destruct cmd as [|prog args]; [constructor|].
  destruct (spawn w (prog :: args)) as [[c w1]|]; [|constructor].
  cbn. destruct (returncode c =? 0) eqn:Z0; cbn.
  - specialize (IH w1). destruct (run_commands rest w1) as [[r w2] t].
    apply Z.eqb_eq in Z0. now constructor.
  - apply Z.eqb_neq in Z0. now constructor.
Qed.

Arguments run_commands : simpl never.

(** *** Sequencing *)

Lemma bind_assoc {A B C} (m : M World A) (f : A -> M World B)
      (g : B -> M World C) w :
  bind (bind m f) g w = bind m (fun a => bind (f a) g) w.
Proof.
  unfold bind.
  destruct (m w) as [[[a|e] w1] t1]; [|reflexivity].
  destruct (f a w1) as [[[b|e] w2] t2]; [|reflexivity].
  destruct (g b w2) as [[r w3] t3]. now rewrite app_assoc.
Qed.

Lemma bind_ext {A B} (m : M World A) (k1 k2 : A -> M World B) w :
  (forall a w', k1 a w' = k2 a w') -> bind m k1 w = bind m k2 w.
Proof.
  intros E. unfold bind.
  destruct (m w) as [[[a|e] w1] t1]; [|reflexivity]. now rewrite E.
Qed.

(** A sequence seen from outside: where it stops and what it emits. *)
Lemma bind_cases {A B} (m : M World A) (k : A -> M World B) w :
  (exists a w1, m w = (Ok a, w1, snd (m w))
                /\ fst (fst (bind m k w)) = fst (fst (k a w1))
                /\ snd (bind m k w) = (snd (m w) ++ snd (k a w1))%list)
  \/ (exists e, fst (fst (m w)) = Raise e
                /\ fst (fst (bind m k w)) = Raise e
                /\ snd (bind m k w) = snd (m w)).
Proof.
  unfold bind. destruct (m w) as [[[a|e] w1] t1]; cbn.
  - left. exists a, w1. destruct (k a w1) as [[r w2] t2]. now cbn.
  - right. now exists e.
Qed.

Lemma setup_env_phases pv en w :
  setup_env pv en w
  = (ensure_conda ;; create_env pv en ;; locate_and_relink en) w.
Proof.
  unfold setup_env, ensure_conda, create_env, locate_and_relink, relink.
  symmetry. rewrite bind_assoc. apply bind_ext; intros present w0.
  apply bind_ext; intros _ w1.
  rewrite bind_assoc. apply bind_ext; intros _ w2.
  now rewrite bind_assoc.
Qed.

(** *** The phases of [setup_env], one by one *)

Lemma ensure_conda_prelude w :
  Forall prelude_event (snd (ensure_conda w)).
Proof.
  unfold ensure_conda; unfold_m.
  pose proof (check_conda_prelude w) as P.
  destruct (check_conda w) as [[[[|]|e] w0] t]; cbn in *; try prelude.
  pose proof (install_conda_prelude w0) as P0.
  destruct (install_conda w0) as [[r w1] t1]. cbn in *. prelude.
Qed.

Lemma create_env_run pv en w :
  create_env pv en w
  = match spawn w (create_cmd pv en) with
    | None =>
        (Raise (FileNotFoundError "conda"), w,
         [creating pv en; EvSpawn (create_cmd pv en) None])
    | Some (c, w1) =>
        if returncode c =? 0
        then (Ok tt, w1,
              [creating pv en; EvSpawn (create_cmd pv en) (Some c);
               created en])
        else (Raise (RuntimeError create_failed_msg), w1,
              creating pv en :: EvSpawn (create_cmd pv en) (Some c)
              :: creation_failure c)
    end.
Proof.
  unfold create_env; unfold_m. unfold subprocess_run, create_cmd.
  destruct (spawn _ _) as [[c w1]|]; [|reflexivity].
  cbn. now destruct (returncode c =? 0).
Qed.

Lemma locate_and_relink_run en w :
  AfterCreation en (fst (fst (locate_and_relink en w)))
                (snd (locate_and_relink en w)).
Proof.
  unfold locate_and_relink, relink, query_base_dir; unfold_m.
  unfold subprocess_run, python_version_cmd.
  destruct (spawn w conda_info_base_cmd) as [[c w1]|];
    [|cbn; apply base_not_started].
  cbn. destruct (returncode c =? 0) eqn:Z0; cbn.
  2:{ apply Z.eqb_neq in Z0. now apply base_failed. }
  apply Z.eqb_eq in Z0.
  destruct (os_which w1 "python") as [python_path|];
    [|now apply python_missing].
  pose proof (run_commands_run
                (relink_commands (PyStr.strip (stdout c)) en python_path)
                w1) as L.
  destruct (run_commands _ w1) as [[[[]|e] w2] t]; cbn in L |- *.
  2:{ now apply relink_stopped. }
  crunch; (apply relinked; [assumption..|]);
    repeat (apply Forall_cons || apply Forall_nil); cbn; auto.
Qed.

(** Every call of [setup_env] goes one of the ways of [SetupRun]. *)
Lemma setup_env_run pv en w :
  SetupRun pv en (fst (fst (setup_env pv en w))) (snd (setup_env pv en w)).
Proof.
  rewrite setup_env_phases.
  pose proof (ensure_conda_prelude w) as P.
  destruct (bind_cases ensure_conda
              (fun _ => create_env pv en ;; locate_and_relink en) w)
    as [([] & w0 & _ & -> & ->)|(e & _ & -> & ->)]; [|now constructor].
  destruct (bind_cases (create_env pv en)
              (fun _ => locate_and_relink en) w0)
    as [([] & w1 & C & -> & ->)|(e & C & -> & ->)];
    rewrite create_env_run in C |- *;
    destruct (spawn w0 (create_cmd pv en)) as [[c w2]|];
    try destruct (returncode c =? 0) eqn:Z0; cbn in C; try discriminate.
  - injection C as ->. apply Z.eqb_eq in Z0.
    cbn. apply setup_created; auto. apply locate_and_relink_run.
  - injection C as <-. apply Z.eqb_neq in Z0. now constructor.
  - injection C as <-. now constructor.
Qed.


(** *** Reading the transcripts of the phases *)

Lemma spawned_app evs1 evs2 :
  spawned (evs1 ++ evs2) = (spawned evs1 ++ spawned evs2)%list.
Proof.
  induction evs1 as [|e evs1 IH]; [reflexivity|].
  destruct e; cbn; now rewrite ?IH.
Qed.

Lemma symlink_mutations_app evs1 evs2 :
  symlink_mutations (evs1 ++ evs2)
  = (symlink_mutations evs1 ++ symlink_mutations evs2)%list.
Proof. unfold symlink_mutations. now rewrite spawned_app, filter_app. Qed.

Lemma in_spawned argv evs :
  In argv (spawned evs) <-> exists o, In (EvSpawn argv o) evs.
Proof.
  induction evs as [|e evs IH]; cbn.
  - split; [tauto|now intros [? ?]].
  - destruct e; cbn; rewrite IH; split;
      try (intros [o I]; exists o; now right);
      try (intros [o [D|I]]; [discriminate|now exists o]).
    + intros [<-|[o' I]]; [now exists outcome; left|exists o'; now right].
    + intros [o' [[= <- _]|I]]; [now left|right; now exists o'].
Qed.

(** A transcript none of whose processes touches a symlink. *)
Lemma no_mutation evs :
  (forall argv o, In (EvSpawn argv o) evs -> is_symlink_mutation argv = false) ->
  symlink_mutations evs = [].
Proof.
  intros N. unfold symlink_mutations.
  induction evs as [|e evs IH]; [reflexivity|].
  assert (IH' : filter is_symlink_mutation (spawned evs) = [])
    by (apply IH; intros argv o I; apply (N argv o); now right).
  destruct e; cbn; auto.
  now rewrite (N argv outcome (or_introl eq_refl)).
Qed.

Lemma prelude_spawn t argv o :
  Forall prelude_event t ->
  In (EvSpawn argv o) t ->
  argv = conda_version_cmd \/ exists exe, argv = pip_install_condacolab_cmd exe.
Proof.
  intros P I. rewrite Forall_forall in P. exact (P _ I).
Qed.

Lemma prelude_which t name found :
  Forall prelude_event t -> In (EvWhich name found) t -> name = "conda"%string.
Proof. intros P I. rewrite Forall_forall in P. exact (P _ I). Qed.

Lemma prelude_no_mutation t :
  Forall prelude_event t -> symlink_mutations t = [].
Proof.
  intros P. apply no_mutation. intros argv o I.
  destruct (prelude_spawn _ _ _ P I) as [->|[exe ->]]; [reflexivity|].
  cbn. apply andb_false_r.
Qed.

Lemma prelude_not_creation t pv en o :
  Forall prelude_event t -> ~ In (EvSpawn (create_cmd pv en) o) t.
Proof.
  intros P I.
  now destruct (prelude_spawn _ _ _ P I) as [D|[exe D]].
Qed.

Lemma prelude_not_base_query t o :
  Forall prelude_event t -> ~ In (EvSpawn conda_info_base_cmd o) t.
Proof.
  intros P I.
  now destruct (prelude_spawn _ _ _ P I) as [D|[exe D]].
Qed.

Lemma loop_events cmds r t :
  LoopRun cmds r t -> forall e, In e t -> loop_event cmds e.
Proof.
  induction 1 as [|cmd rest c r t Z0 L IH|cmd rest c NZ|prog args rest|rest];
    cbn; intros e I.
  - contradiction.
  - destruct I as [<-|[<-|I]]; cbn; auto.
    specialize (IH e I). destruct e; cbn in *; auto.
  - destruct I as [<-|[<-|[<-|[<-|[]]]]]; cbn; auto.
  - destruct I as [<-|[<-|[]]]; cbn; auto.
  - destruct I as [<-|[]]; cbn; auto.
Qed.

Lemma loop_prefix cmds r t :
  LoopRun cmds r t -> exists n, spawned t = firstn n cmds.
Proof.
  induction 1 as [|cmd rest c r t Z0 L [n IH]|cmd rest c NZ|prog args rest|rest].
  - now exists 0%nat.
  - exists (S n). cbn. now rewrite IH.
  - now exists 1%nat.
  - now exists 1%nat.
  - now exists 0%nat.
Qed.

Lemma loop_complete cmds t :
  LoopRun cmds (Ok tt) t ->
  spawned t = cmds /\ all_zero (fun _ => true) t.
Proof.
  intros L. remember (Ok tt) as r eqn:R.
  induction L as [|cmd rest c r t Z0 L IH| | |]; try discriminate.
  - split; [reflexivity|]. intros argv o [].
  - destruct (IH R) as [S A]. split; [cbn; now rewrite S|].
    intros argv o [D|[[= <- <-]|I]] T; [discriminate|eauto|eauto].
Qed.

Lemma loop_stopped cmds e t :
  LoopRun cmds (Raise e) t ->
  Forall (fun cmd => cmd <> []) cmds ->
  exists argv o,
    In (EvSpawn argv o) t /\ In argv cmds
    /\ ~ (exists c, o = Some c /\ returncode c = 0).
Proof.
  intros L. remember (Raise e) as r eqn:R.
  induction L as [|cmd rest c r t Z0 L IH|cmd rest c NZ|prog args rest|rest];
    intros NE; try discriminate.
  - inversion NE as [|? ? _ NE']; subst.
    destruct (IH eq_refl NE') as (argv & o & I & J & N).
    exists argv, o. cbn. auto.
  - exists cmd, (Some c). cbn. split; [auto|]. split; [auto|].
    intros (c' & [= <-] & Z0). contradiction.
  - exists (prog :: args), None. cbn. split; [auto|]. split; [auto|].
    now intros (c' & D & _).
  - inversion NE; subst. congruence.
Qed.

Lemma loop_failure cmds r t cmd c :
  LoopRun cmds r t ->
  In (EvSpawn cmd (Some c)) t ->
  returncode c <> 0 ->
  r = Raise (RuntimeError (command_failed_msg cmd))
  /\ exists pre,
      t = (pre ++ EvSpawn cmd (Some c) :: report_failure cmd c)%list
      /\ all_zero (fun _ => true) pre.
Proof.
  intros L I NZ.
  induction L as [|cmd' rest c' r t Z0 L IH|cmd' rest c' NZ'|prog args rest|rest].
  - contradiction.
  - destruct I as [D|[[= <- <-]|I]]; [discriminate|contradiction|].
    destruct (IH I) as (-> & pre & -> & A). split; [reflexivity|].
    exists (announce cmd' :: EvSpawn cmd' (Some c') :: pre).
    split; [reflexivity|].
    intros argv o [D|[[= <- <-]|J]] T; [discriminate|eauto|eauto].
  - destruct I as [D|[[= -> ->]|[D|[D|[]]]]]; try discriminate.
    split; [reflexivity|]. exists [announce cmd]. split; [reflexivity|].
    intros argv o [D|[]]. discriminate.
  - destruct I as [D|[D|[]]]; discriminate.
  - destruct I as [D|[]]; discriminate.
Qed.

Lemma relink_commands_mutate base_dir en python_path argv :
  In argv (relink_commands base_dir en python_path) ->
  is_symlink_mutation argv = true.
Proof.
  unfold relink_commands. cbn.
  intros [<-|[<-|[<-|[<-|[<-|[<-|[]]]]]]]; reflexivity.
Qed.

Lemma relink_commands_nonempty base_dir en python_path :
  Forall (fun cmd => cmd <> []) (relink_commands base_dir en python_path).
Proof. unfold relink_commands. repeat constructor; discriminate. Qed.

Lemma verify_spawn t argv o :
  Forall verify_event t ->
  In (EvSpawn argv o) t ->
  argv = python_version_cmd \/ argv = ["pip"; "--version"].
Proof. intros V I. rewrite Forall_forall in V. exact (V _ I). Qed.

Lemma loop_spawn cmds r t argv o :
  LoopRun cmds r t -> In (EvSpawn argv o) t -> In argv cmds.
Proof. intros L I. exact (loop_events _ _ _ L _ I). Qed.

(** The processes of the later phases: the base-directory query, the
    commands on the links, the two version queries. *)
Lemma after_creation_spawn en r t argv o :
  AfterCreation en r t ->
  In (EvSpawn argv o) t ->
  argv = conda_info_base_cmd \/ is_symlink_mutation argv = true
  \/ argv = python_version_cmd \/ argv = ["pip"; "--version"].
Proof.
  intros A I.
  destruct A as [|c NZ|c Z0|c pp e t Z0 L|c pp t r t' Z0 L V]; cbn in I.
  - destruct I as [[= <- _]|[]]. now left.
  - destruct I as [[= <- _]|[D|[]]]; [now left|discriminate].
  - destruct I as [[= <- _]|[D|[]]]; [now left|discriminate].
  - destruct I as [[= <- _]|[D|[D|I]]]; [now left|discriminate..|].
    right; left. eapply relink_commands_mutate, loop_spawn; eassumption.
  - destruct I as [[= <- _]|[D|[D|I]]]; [now left|discriminate..|].
    apply in_app_or in I. destruct I as [I|I].
    + right; left. eapply relink_commands_mutate, loop_spawn; eassumption.
    + right; right. eapply verify_spawn; eassumption.
Qed.

Lemma after_creation_not_creation en r t pv o :
  AfterCreation en r t -> ~ In (EvSpawn (create_cmd pv en) o) t.
Proof.
  intros A I.
  now destruct (after_creation_spawn _ _ _ _ _ A I) as [D|[D|[D|D]]].
Qed.

(** C1. In every run of [setup_env] whose environment-creation command
    exits with a non-zero code, [setup_env] raises [RuntimeError] and no
    command on the symlinks is run: the transcript stops at the failed
    creation and the two lines that report it. *)
Theorem setup_env_creation_failure pv en w c :
  In (EvSpawn (create_cmd pv en) (Some c)) (snd (setup_env pv en w)) ->
  returncode c <> 0 ->
  fst (fst (setup_env pv en w)) = Raise (RuntimeError create_failed_msg)
  /\ symlink_mutations (snd (setup_env pv en w)) = []
  /\ exists t,
      snd (setup_env pv en w)
      = (t ++ EvSpawn (create_cmd pv en) (Some c) :: creation_failure c)%list.
Proof.
  intros I NZ. pose proof (setup_env_run pv en w) as R.
  destruct (setup_env pv en w) as [[r w'] evs]. cbn [fst snd] in *.
  destruct R as [e t P|t P|t c' P NZ'|t c' r t' P Z0 A].
  - now apply prelude_not_creation in I.
  - apply in_app_or in I. destruct I as [I|[D|[D|[]]]]; try discriminate.
    now apply prelude_not_creation in I.
  - apply in_app_or in I.
    destruct I as [I|[D|[[= ->]|[D|[D|[]]]]]]; try discriminate.
    { now apply prelude_not_creation in I. }
    split; [reflexivity|]. split.
    + rewrite symlink_mutations_app, (prelude_no_mutation _ P).
      reflexivity.
    + exists (t ++ [creating pv en])%list. now rewrite <- app_assoc.
  - apply in_app_or in I.
    destruct I as [I|[D|[[= ->]|[D|I]]]]; try discriminate.
    + now apply prelude_not_creation in I.
    + contradiction.
    + now apply (after_creation_not_creation _ _ _ _ _ A) in I.
Qed.

Lemma filter_all {A} (f : A -> bool) (l : list A) :
  (forall x, In x l -> f x = true) -> filter f l = l.
Proof.
  induction l as [|x l IH]; intros T; [reflexivity|]. cbn.
  rewrite (T x (or_introl eq_refl)), IH; [reflexivity|].
  intros y I. apply T. now right.
Qed.

(** In the loop over the relinking commands every process is a command on
    the symlinks. *)
Lemma loop_mutations base_dir en python_path r t :
  LoopRun (relink_commands base_dir en python_path) r t ->
  symlink_mutations t = spawned t.
Proof.
  intros L. apply filter_all. intros argv I.
  apply in_spawned in I. destruct I as [o I].
  eapply relink_commands_mutate, loop_spawn; eassumption.
Qed.

Lemma verify_no_mutation t :
  Forall verify_event t -> symlink_mutations t = [].
Proof.
  intros V. apply no_mutation. intros argv o I.
  now destruct (verify_spawn _ _ _ V I) as [->| ->].
Qed.

Lemma all_zero_weaken sel t : all_zero (fun _ => true) t -> all_zero sel t.
Proof. intros A argv o I _. now apply (A argv o). Qed.

(** The relinking, as the later phases of [setup_env] show it. *)
Lemma after_creation_relinks en r t' c_info python_path :
  AfterCreation en r t' ->
  In (EvSpawn conda_info_base_cmd (Some c_info)) t' ->
  In (EvWhich "python" (Some python_path)) t' ->
  let cmds := relink_commands (PyStr.strip (stdout c_info)) en python_path in
  (exists n, symlink_mutations t' = firstn n cmds)
  /\ (all_zero is_symlink_mutation t' -> symlink_mutations t' = cmds)
  /\ (forall cmd c,
         In (EvSpawn cmd (Some c)) t' ->
         is_symlink_mutation cmd = true ->
         returncode c <> 0 ->
         r = Raise (RuntimeError (command_failed_msg cmd))
         /\ exists t,
             t' = (t ++ EvSpawn cmd (Some c) :: report_failure cmd c)%list
             /\ all_zero is_symlink_mutation t).
Proof.
  intros A Hb Hp cmds.
  destruct A as [|c NZ|c Z0|c pp e t Z0 L|c pp t r t'' Z0 L V]; cbn in Hb, Hp.
  - destruct Hb as [D|[]]; discriminate.
  - destruct Hp as [D|[D|[]]]; discriminate.
  - destruct Hp as [D|[D|[]]]; discriminate.
  - assert (c = c_info) as ->.
    { destruct Hb as [[= ->]|[D|[D|I]]]; try discriminate; [reflexivity|].
      now apply (loop_spawn _ _ _ _ _ L), relink_commands_mutate in I. }
    assert (pp = python_path) as ->.
    { destruct Hp as [D|[[= ->]|[D|I]]]; try discriminate; [reflexivity|].
      now apply (loop_events _ _ _ L) in I. }
    fold cmds in L.
    change (symlink_mutations
              (EvSpawn conda_info_base_cmd (Some c_info)
               :: EvWhich "python" (Some python_path) :: updating_links :: t))
      with (symlink_mutations t).
    rewrite (loop_mutations _ _ _ _ _ L).
    split; [exact (loop_prefix _ _ _ L)|]. split.
    + intros Z.
      destruct (loop_stopped _ _ _ L (relink_commands_nonempty _ _ _))
        as (argv & o & I & J & N).
      destruct N. apply (Z argv o); [now do 3 right|].
      exact (relink_commands_mutate _ _ _ _ J).
    + intros cmd c' I M NZ.
      destruct I as [[= <- _]|[D|[D|I]]]; try discriminate.
      destruct (loop_failure _ _ _ _ _ L I NZ) as (R & pre & -> & Z).
      split; [exact R|].
      exists (EvSpawn conda_info_base_cmd (Some c_info)
              :: EvWhich "python" (Some python_path) :: updating_links :: pre).
      split; [reflexivity|].
      intros argv o [[= <- _]|[D|[D|J]]] T; try discriminate.
      now apply (Z argv o).
  - assert (c = c_info) as ->.
    { destruct Hb as [[= ->]|[D|[D|I]]]; try discriminate; [reflexivity|].
      apply in_app_or in I. destruct I as [I|I].
      - now apply (loop_spawn _ _ _ _ _ L), relink_commands_mutate in I.
      - now destruct (verify_spawn _ _ _ V I). }
    assert (pp = python_path) as ->.
    { destruct Hp as [D|[[= ->]|[D|I]]]; try discriminate; [reflexivity|].
      apply in_app_or in I. destruct I as [I|I].
      - now apply (loop_events _ _ _ L) in I.
      - rewrite Forall_forall in V. now apply V in I. }
    fold cmds in L.
    change (symlink_mutations
              (EvSpawn conda_info_base_cmd (Some c_info)
               :: EvWhich "python" (Some python_path) :: updating_links
               :: t ++ t''))
      with (symlink_mutations (t ++ t'')).
    destruct (loop_complete _ _ L) as [S Z].
    rewrite symlink_mutations_app, (loop_mutations _ _ _ _ _ L), S,
      (verify_no_mutation _ V), app_nil_r.
    split; [exists (length cmds); now rewrite firstn_all|].
    split; [reflexivity|].
    intros cmd c' I M NZ.
    destruct I as [[= <- _]|[D|[D|I]]]; try discriminate.
    apply in_app_or in I. destruct I as [I|I].
    + destruct (Z _ _ I eq_refl) as (c0 & [= <-] & Z0'). contradiction.
    + destruct (verify_spawn _ _ _ V I) as [->| ->]; discriminate.
Qed.

(** C2, amended.  In a run of [setup_env] where the creation of the
    environment exits with zero, the query of the base directory exits
    with zero and [python] resolves to [python_path], the commands on the
    symlinks are the six of [relink_commands], three removals then three
    links, started in that order, and all six when every one exits with
    zero.  A step that exits with a non-zero code ends [setup_env] with
    [RuntimeError]: the steps before it exited with zero, and the
    transcript stops at that step and the two lines that report it, so no
    later step is run and nothing is undone. *)
Theorem setup_env_relinks pv en w c_create c_info python_path :
  let evs := snd (setup_env pv en w) in
  let base_dir := PyStr.strip (stdout c_info) in
  let python_dir := PyStr.dirname python_path in
  let cmds := relink_commands base_dir en python_path in
  In (EvSpawn (create_cmd pv en) (Some c_create)) evs ->
  returncode c_create = 0 ->
  In (EvSpawn conda_info_base_cmd (Some c_info)) evs ->
  returncode c_info = 0 ->
  In (EvWhich "python" (Some python_path)) evs ->
  cmds = [ ["sudo"; "rm"; "-f"; python_path];
           ["sudo"; "rm"; "-f"; PyStr.path_join python_dir ["python3"]];
           ["sudo"; "rm"; "-f"; PyStr.path_join python_dir ["pip"]];
           ["sudo"; "ln"; "-sf"; new_python base_dir en; python_path];
           ["sudo"; "ln"; "-sf"; new_python base_dir en;
            PyStr.path_join python_dir ["python3"]];
           ["sudo"; "ln"; "-sf"; new_pip base_dir en;
            PyStr.path_join python_dir ["pip"]] ]
  /\ (exists n, symlink_mutations evs = firstn n cmds)
  /\ (all_zero is_symlink_mutation evs -> symlink_mutations evs = cmds)
  /\ (forall cmd c,
         In (EvSpawn cmd (Some c)) evs ->
         is_symlink_mutation cmd = true ->
         returncode c <> 0 ->
         fst (fst (setup_env pv en w))
         = Raise (RuntimeError (command_failed_msg cmd))
         /\ exists t,
             evs = (t ++ EvSpawn cmd (Some c) :: report_failure cmd c)%list
             /\ all_zero is_symlink_mutation t).
Proof.
  intros evs base_dir python_dir cmds Hc Zc Hb Zb Hp.
  split; [reflexivity|].
  subst evs. pose proof (setup_env_run pv en w) as R.
  destruct (setup_env pv en w) as [[r w'] evs]. cbn [fst snd] in *.
  destruct R as [e t P|t P|t c' P NZ'|t c' r t' P Z0 A].
  - now apply prelude_which in Hp.
  - apply in_app_or in Hp. destruct Hp as [I|[D|[D|[]]]]; try discriminate.
    now apply prelude_which in I.
  - apply in_app_or in Hp.
    destruct Hp as [I|[D|[D|[D|[D|[]]]]]]; try discriminate.
    now apply prelude_which in I.
  - set (head := (t ++ [creating pv en;
                        EvSpawn (create_cmd pv en) (Some c');
                        created en])%list).
    assert (E : (t ++ creating pv en
                   :: EvSpawn (create_cmd pv en) (Some c')
                   :: created en :: t')%list = (head ++ t')%list)
      by (unfold head; now rewrite <- app_assoc).
    rewrite E in *. clear E.
    assert (Q : forall argv o,
               In (EvSpawn argv o) head -> is_symlink_mutation argv = false).
    { intros argv o I. apply in_app_or in I.
      destruct I as [I|[D|[[= <- _]|[D|[]]]]]; try discriminate.
      - destruct (prelude_spawn _ _ _ P I) as [->|[exe ->]];
          [reflexivity|cbn; apply andb_false_r].
      - reflexivity. }
    assert (Hb' : In (EvSpawn conda_info_base_cmd (Some c_info)) t').
    { apply in_app_or in Hb. destruct Hb as [I|I]; [|exact I].
      unfold head in I. apply in_app_or in I.
      destruct I as [I|[D|[D|[D|[]]]]]; try discriminate.
      now apply prelude_not_base_query in I. }
    assert (Hp' : In (EvWhich "python" (Some python_path)) t').
    { apply in_app_or in Hp. destruct Hp as [I|I]; [|exact I].
      unfold head in I. apply in_app_or in I.
      destruct I as [I|[D|[D|[D|[]]]]]; try discriminate.
      now apply prelude_which in I. }
    destruct (after_creation_relinks _ _ _ _ _ A Hb' Hp') as (N & Zall & F).
    rewrite symlink_mutations_app, (no_mutation _ Q). cbn [app].
    split; [exact N|]. split.
    + intros Z. apply Zall. intros argv o I T.
      apply (Z argv o); [apply in_or_app; now right|exact T].
    + intros cmd c I M NZ. apply in_app_or in I.
      destruct I as [I|I]; [apply Q in I; congruence|].
      destruct (F cmd c I M NZ) as (R & t0 & -> & Z).
      split; [exact R|]. exists (head ++ t0)%list.
      split; [now rewrite <- app_assoc|].
      intros argv o J T. apply in_app_or in J.
      destruct J as [J|J]; [apply Q in J; congruence|].
      now apply (Z argv o).
Qed.

(** ** Further properties *)

(** *** The probes *)


Lemma check_conda_missing w :
  os_which w "conda" = None ->
  check_conda w
  = (Ok false, w,
     [EvWhich "conda" None; EvPrint [PStr "❌ Conda is not installed."]]).
Proof. intros E. unfold check_conda; unfold_m. now missing E. Qed.




(** *** The installer *)



(** X5. When [conda] is absent and the [pip install] of condacolab exits
    with a non-zero code, [install_conda] logs the error and raises that
    [CalledProcessError]; condacolab is neither imported nor run. *)
Theorem install_conda_pip_failure w c w1 :
  let pip := pip_install_condacolab_cmd (os_sys_executable w) in
  os_which w "conda" = None ->
  spawn w pip = Some (c, w1) ->
  returncode c <> 0 ->
  install_conda w
  = (Raise (CalledProcessError (returncode c) pip), w1,
     install_prefix
     ++ [EvSpawn pip (Some c);
         EvPrint [PStr "❌ Error installing condacolab:";
                  PExn (CalledProcessError (returncode c) pip)]])%list.
Proof.
  intros pip E S NZ. unfold install_conda. unfold bind at 1.
  rewrite (check_conda_missing _ E). unfold_m. unfold sys_executable.
  subst pip. unfold pip_install_condacolab_cmd in *. cbn.
  now rewrite (run_checked_nonzero _ _ _ _ _ S NZ).
Qed.


(** X7. [install_conda] returns normally in two cases only: [conda] was
    already on the search path, or [condacolab.install()] was run and came
    back, which the last line printed confirms. *)
Theorem install_conda_success w :
  fst (fst (install_conda w)) = Ok tt ->
  (exists p, os_which w "conda" = Some p)
  \/ (In EvCondacolabInstall (snd (install_conda w))
      /\ last (snd (install_conda w)) (EvPrint []) = install_complete).
Proof.
  destruct (os_which w "conda") as [p|] eqn:E; [left; now exists p|].
  intros R. right. revert R.
  unfold install_conda; unfold_m.
  rewrite (check_conda_missing _ E).
  unfold sys_executable, import_module, condacolab_install, subprocess_run,
    pip_install_condacolab_cmd.
  crunch; try discriminate; intros _;
    (split; [repeat first [left; reflexivity | right]|reflexivity]).
Qed.

(** *** The repair *)

Lemma fix_conda_absent w :
  os_which w "conda" = None ->
  fix_conda w
  = let '(r, w1, t) := install_conda w in
    (r, w1, EvWhich "conda" None :: conda_not_found :: t).
Proof.
  intros E. unfold fix_conda; unfold_m. rewrite E.
  now destruct (install_conda w) as [[r w1] t].
Qed.

(** X8. When [conda] does not resolve, [fix_conda] is [install_conda]
    after two lines of transcript: same result, same world, and nothing is
    removed. *)
Theorem fix_conda_absent_delegates w :
  os_which w "conda" = None ->
  fst (fix_conda w) = fst (install_conda w)
  /\ snd (fix_conda w)
     = EvWhich "conda" None :: conda_not_found :: snd (install_conda w)
  /\ symlink_mutations (snd (fix_conda w)) = [].
Proof.
  intros E. rewrite (fix_conda_absent _ E).
  pose proof (install_conda_prelude w) as P.
  destruct (install_conda w) as [[r w1] t]. cbn [fst snd] in *.
  repeat split.
  change (symlink_mutations t = []). now apply prelude_no_mutation.
Qed.

Lemma fix_conda_working w p c w1 :
  os_which w "conda" = Some p ->
  spawn w conda_version_cmd = Some (c, w1) ->
  returncode c = 0 ->
  fix_conda w
  = (Ok tt, w1,
     [EvWhich "conda" (Some p); conda_found_at p;
      EvSpawn conda_version_cmd (Some c);
      EvPrint [PStr "✅ Conda is working properly!"]]).
Proof.
  intros E S Z0. unfold fix_conda; unfold_m. found E.
  unfold conda_version_cmd in *.
  now rewrite (run_checked_zero _ _ _ _ _ S Z0).
Qed.

(** X9. When [conda] resolves and its version query exits with zero,
    [fix_conda] changes nothing: it returns after that one query, in the
    world the query left, without removing or installing anything. *)
Theorem fix_conda_working_is_readonly w p c w1 :
  os_which w "conda" = Some p ->
  spawn w conda_version_cmd = Some (c, w1) ->
  returncode c = 0 ->
  fst (fix_conda w) = (Ok tt, w1)
  /\ spawned (snd (fix_conda w)) = [conda_version_cmd]
  /\ ~ In (EvImport "condacolab") (snd (fix_conda w))
  /\ ~ In EvCondacolabInstall (snd (fix_conda w)).
Proof.
  intros E S Z0. rewrite (fix_conda_working _ _ _ _ E S Z0). cbn.
  repeat split; intros I; repeat destruct I as [I|I]; discriminate || auto.
Qed.

(** X10. When the removal of the broken binary exits with a non-zero code,
    [fix_conda] raises that [CalledProcessError] at once: nothing is
    reinstalled and conda is not queried again. *)
Theorem fix_conda_removal_failure w p c1 w1 c2 w2 :
  os_which w "conda" = Some p ->
  spawn w conda_version_cmd = Some (c1, w1) ->
  returncode c1 <> 0 ->
  spawn w1 (remove_cmd p) = Some (c2, w2) ->
  returncode c2 <> 0 ->
  fix_conda w
  = (Raise (CalledProcessError (returncode c2) (remove_cmd p)), w2,
     [EvWhich "conda" (Some p); conda_found_at p;
      EvSpawn conda_version_cmd (Some c1); conda_broken; removing_conda;
      EvSpawn (remove_cmd p) (Some c2)]).
Proof.
  intros E S1 NZ1 S2 NZ2. unfold fix_conda; unfold_m. found E.
  unfold conda_version_cmd, remove_cmd in *.
  rewrite (run_checked_nonzero _ _ _ _ _ S1 NZ1). cbn.
  now rewrite (run_checked_nonzero _ _ _ _ _ S2 NZ2).
Qed.

(** X11. Whatever the machine, the only elevated command [fix_conda]
    ever starts is one [sudo rm -f] of the path [conda] resolved to, and
    only after a version query of that conda exited with a non-zero
    code. *)
Theorem fix_conda_removes_only_broken w :
  symlink_mutations (snd (fix_conda w)) = []
  \/ exists p c,
      os_which w "conda" = Some p
      /\ symlink_mutations (snd (fix_conda w)) = [remove_cmd p]
      /\ In (EvSpawn conda_version_cmd (Some c)) (snd (fix_conda w))
      /\ returncode c <> 0.
Proof.
  destruct (os_which w "conda") as [p|] eqn:E.
  2:{ left. rewrite (fix_conda_absent _ E).
      pose proof (prelude_no_mutation _ (install_conda_prelude w)) as P.
      now destruct (install_conda w) as [[r w1] t]. }
  pose proof (spawn_found w "conda" ["--version"] p E) as S.
  destruct (os_exec w p ["conda"; "--version"]) as [c w1].
  destruct (Z.eq_dec (returncode c) 0) as [Z0|NZ].
  { left. fold conda_version_cmd in S.
    now rewrite (fix_conda_working _ _ _ _ E S Z0). }
  right. exists p, c. split; [reflexivity|].
  unfold fix_conda; unfold_m. found E. unfold conda_version_cmd.
  rewrite (run_checked_nonzero _ _ _ _ _ S NZ). cbn.
  unfold subprocess_run, remove_cmd.
  destruct (spawn w1 ["sudo"; "rm"; "-f"; p]) as [[c0 w0]|]; cbn;
    [destruct (returncode c0 =? 0); cbn|]; try (split; cbn; now auto).
  pose proof (prelude_no_mutation _ (install_conda_prelude w0)) as P.
  unfold symlink_mutations in *.
  destruct (install_conda w0) as [[[[]|e] w2] t0]; cbn in P |- *.
  2:{ rewrite P. split; now auto. }
  destruct (spawn w2 ["conda"; "--version"]) as [[c3 w3]|]; cbn;
    [destruct (returncode c3 =? 0); cbn|];
    rewrite ?spawned_app, ?filter_app, P; cbn; split; now auto.
Qed.

(** *** The provisioner, beyond the relinking *)

(** A late event of a run of [setup_env] lies after a successful
    creation. *)
Lemma setup_run_late pv en r evs e :
  SetupRun pv en r evs ->
  In e evs ->
  late_event pv en e ->
  exists t c t',
    Forall prelude_event t /\ returncode c = 0
    /\ evs = (t ++ creating pv en
                :: EvSpawn (create_cmd pv en) (Some c)
                :: created en :: t')%list
    /\ AfterCreation en r t' /\ In e t'.
Proof.
  intros R I [NP L].
  assert (Q : forall t, Forall prelude_event t -> ~ In e t).
  { intros t P J. rewrite Forall_forall in P. exact (NP (P _ J)). }
  destruct R as [e' t P|t P|t c P NZ|t c r t' P Z0 A].
  - now apply Q in I.
  - apply in_app_or in I. destruct I as [I|[<-|[<-|[]]]]; cbn in L;
      [now apply Q in I|contradiction|congruence].
  - apply in_app_or in I.
    destruct I as [I|[<-|[<-|[<-|[<-|[]]]]]]; cbn in L;
      [now apply Q in I|contradiction|congruence|contradiction..].
  - exists t, c, t'. repeat split; auto.
    apply in_app_or in I.
    destruct I as [I|[<-|[<-|[<-|I]]]]; cbn in L;
      [now apply Q in I|contradiction|congruence|contradiction|exact I].
Qed.

Lemma created_no_mutation pv en t c t' :
  Forall prelude_event t ->
  symlink_mutations
    (t ++ creating pv en :: EvSpawn (create_cmd pv en) (Some c)
       :: created en :: t')
  = symlink_mutations t'.
Proof.
  intros P. rewrite symlink_mutations_app, (prelude_no_mutation _ P).
  reflexivity.
Qed.

Lemma created_in pv en t c t' :
  In (EvSpawn (create_cmd pv en) (Some c))
     (t ++ creating pv en :: EvSpawn (create_cmd pv en) (Some c)
        :: created en :: t').
Proof. apply in_or_app. right. right. now left. Qed.

(** X12. In every run of [setup_env] where [python] does not resolve on
    the search path when it is looked up, [EnvironmentError] is raised; the
    environment has been created by then, and no symlink is touched. *)
Theorem setup_env_python_missing pv en w :
  In (EvWhich "python" None) (snd (setup_env pv en w)) ->
  fst (fst (setup_env pv en w)) = Raise python_not_found
  /\ symlink_mutations (snd (setup_env pv en w)) = []
  /\ exists c,
      In (EvSpawn (create_cmd pv en) (Some c)) (snd (setup_env pv en w))
      /\ returncode c = 0.
Proof.
  intros I. pose proof (setup_env_run pv en w) as R.
  destruct (setup_env pv en w) as [[r w'] evs]. cbn [fst snd] in *.
  destruct (setup_run_late _ _ _ _ _ R I) as (t & c & t' & P & Z0 & -> & A & J).
  { split; [cbn; discriminate|exact Logic.I]. }
  rewrite (created_no_mutation _ _ _ _ _ P).
  assert (r = Raise python_not_found /\ symlink_mutations t' = []) as [-> ->].
  { destruct A as [|c' NZ|c' Z0'|c' pp e t0 Z0' L|c' pp t0 r t1 Z0' L V];
      cbn in J.
    - destruct J as [D|[]]; discriminate.
    - destruct J as [D|[D|[]]]; discriminate.
    - now split.
    - destruct J as [D|[D|[D|J]]]; try discriminate.
      now apply (loop_events _ _ _ L) in J.
    - destruct J as [D|[D|[D|J]]]; try discriminate.
      apply in_app_or in J. destruct J as [J|J].
      + now apply (loop_events _ _ _ L) in J.
      + rewrite Forall_forall in V. now apply V in J. }
  repeat split. exists c. split; [apply created_in|exact Z0].
Qed.

(** X13. In every run of [setup_env] where the query of the base
    directory exits with a non-zero code, that [CalledProcessError] is what
    [setup_env] raises; the environment has been created by then, and no
    symlink is touched. *)
Theorem setup_env_base_query_failure pv en w c :
  In (EvSpawn conda_info_base_cmd (Some c)) (snd (setup_env pv en w)) ->
  returncode c <> 0 ->
  fst (fst (setup_env pv en w))
  = Raise (CalledProcessError (returncode c) conda_info_base_cmd)
  /\ symlink_mutations (snd (setup_env pv en w)) = []
  /\ exists c',
      In (EvSpawn (create_cmd pv en) (Some c')) (snd (setup_env pv en w))
      /\ returncode c' = 0.
Proof.
  intros I NZ. pose proof (setup_env_run pv en w) as R.
  destruct (setup_env pv en w) as [[r w'] evs]. cbn [fst snd] in *.
  destruct (setup_run_late _ _ _ _ _ R I) as (t & c0 & t' & P & Z0 & -> & A & J).
  { split; [|discriminate]. cbn. intros [D|[exe D]]; discriminate. }
  rewrite (created_no_mutation _ _ _ _ _ P).
  assert (r = Raise (CalledProcessError (returncode c) conda_info_base_cmd)
          /\ symlink_mutations t' = []) as [-> ->].
  { destruct A as [|c' NZ'|c' Z0'|c' pp e t0 Z0' L|c' pp t0 r t1 Z0' L V];
      cbn in J.
    - destruct J as [D|[]]; discriminate.
    - destruct J as [[= ->]|[D|[]]]; [now split|discriminate].
    - destruct J as [[= ->]|[D|[]]]; [contradiction|discriminate].
    - destruct J as [[= ->]|[D|[D|J]]]; try discriminate; [contradiction|].
      now apply (loop_spawn _ _ _ _ _ L), relink_commands_mutate in J.
    - destruct J as [[= ->]|[D|[D|J]]]; try discriminate; [contradiction|].
      apply in_app_or in J. destruct J as [J|J].
      + now apply (loop_spawn _ _ _ _ _ L), relink_commands_mutate in J.
      + now destruct (verify_spawn _ _ _ V J). }
  repeat split. exists c0. split; [apply created_in|exact Z0].
Qed.

Lemma mutation_is_late pv en argv o :
  is_symlink_mutation argv = true -> late_event pv en (EvSpawn argv o).
Proof.
  intros M. split.
  - cbn. intros [->|[exe ->]]; [discriminate|].
    cbn in M. now rewrite andb_false_r in M.
  - cbn. intros ->. discriminate.
Qed.

(** X14. A run of [setup_env] touches a symlink only with one of the six
    commands of [relink_commands], and only after the environment was
    created, the base directory was obtained and [python] was found: no
    other elevated command is ever started. *)
Theorem setup_env_mutates_only_when_ready pv en w argv o :
  In (EvSpawn argv o) (snd (setup_env pv en w)) ->
  is_symlink_mutation argv = true ->
  exists c_create c_info python_path,
    In (EvSpawn (create_cmd pv en) (Some c_create)) (snd (setup_env pv en w))
    /\ returncode c_create = 0
    /\ In (EvSpawn conda_info_base_cmd (Some c_info)) (snd (setup_env pv en w))
    /\ returncode c_info = 0
    /\ In (EvWhich "python" (Some python_path)) (snd (setup_env pv en w))
    /\ In argv (relink_commands (PyStr.strip (stdout c_info)) en python_path).
Proof.
  intros I M. pose proof (setup_env_run pv en w) as R.
  destruct (setup_env pv en w) as [[r w'] evs]. cbn [fst snd] in *.
  destruct (setup_run_late _ _ _ _ _ R I (mutation_is_late pv en _ _ M))
    as (t & c & t' & P & Z0 & -> & A & J).
  assert (exists c_info python_path,
             In (EvSpawn conda_info_base_cmd (Some c_info)) t'
             /\ returncode c_info = 0
             /\ In (EvWhich "python" (Some python_path)) t'
             /\ In argv (relink_commands (PyStr.strip (stdout c_info)) en
                                         python_path))
    as (c_info & pp & Hb & Zb & Hp & Hc).
  { destruct A as [|c' NZ'|c' Z0'|c' pp e t0 Z0' L|c' pp t0 r t1 Z0' L V];
      cbn in J.
    - destruct J as [[= <- _]|[]]. discriminate.
    - destruct J as [[= <- _]|[D|[]]]; discriminate.
    - destruct J as [[= <- _]|[D|[]]]; discriminate.
    - exists c', pp. cbn. repeat split; auto.
      destruct J as [[= <- _]|[D|[D|J]]]; try discriminate.
      exact (loop_spawn _ _ _ _ _ L J).
    - exists c', pp. cbn. repeat split; auto.
      destruct J as [[= <- _]|[D|[D|J]]]; try discriminate.
      apply in_app_or in J. destruct J as [J|J].
      + exact (loop_spawn _ _ _ _ _ L J).
      + destruct (verify_spawn _ _ _ V J) as [->| ->]; discriminate. }
  exists c, c_info, pp.
  repeat split; auto; try apply created_in;
    apply in_or_app; right; now do 3 right.
Qed.

(** X15. When [setup_env] returns normally, the environment was created,
    and each of the six relinking commands was run, in order, and exited
    with zero. *)
Theorem setup_env_success pv en w :
  fst (fst (setup_env pv en w)) = Ok tt ->
  exists c_create c_info python_path,
    In (EvSpawn (create_cmd pv en) (Some c_create)) (snd (setup_env pv en w))
    /\ returncode c_create = 0
    /\ In (EvSpawn conda_info_base_cmd (Some c_info)) (snd (setup_env pv en w))
    /\ returncode c_info = 0
    /\ In (EvWhich "python" (Some python_path)) (snd (setup_env pv en w))
    /\ symlink_mutations (snd (setup_env pv en w))
       = relink_commands (PyStr.strip (stdout c_info)) en python_path
    /\ all_zero is_symlink_mutation (snd (setup_env pv en w)).
Proof.
  intros E. pose proof (setup_env_run pv en w) as R.
  destruct (setup_env pv en w) as [[r w'] evs]. cbn [fst snd] in *. subst r.
  inversion R as [| | |t c r t' P Z0 A]; subst.
  inversion A as [| | | |c' pp t0 r t1 Z0' L V]; subst.
  destruct (loop_complete _ _ L) as [S Z].
  exists c, c', pp. split; [apply created_in|]. split; [exact Z0|].
  split; [apply in_or_app; right; do 3 right; now left|].
  split; [assumption|].
  split; [apply in_or_app; right; do 4 right; now left|].
  split.
  - rewrite (created_no_mutation _ _ _ _ _ P).
    change (symlink_mutations (t0 ++ t1)
            = relink_commands (PyStr.strip (stdout c')) en pp).
    now rewrite symlink_mutations_app, (loop_mutations _ _ _ _ _ L), S,
      (verify_no_mutation _ V), app_nil_r.
  - intros argv o I M.
    apply in_app_or in I.
    destruct I as [I|[D|[[= <- _]|[D|[[= <- _]|[D|[D|I]]]]]]];
      try discriminate.
    + destruct (prelude_spawn _ _ _ P I) as [->|[exe ->]];
        [discriminate|cbn in M; now rewrite andb_false_r in M].
    + apply in_app_or in I. destruct I as [I|I].
      * now apply (Z argv o).
      * destruct (verify_spawn _ _ _ V I) as [->| ->]; discriminate.
Qed.

(** X16. When [conda] is absent and the installation that [setup_env]
    starts on its own fails, [setup_env] raises the installer's error and
    the creation of the environment is not attempted. *)
Theorem setup_env_install_failure pv en w e w1 t :
  os_which w "conda" = None ->
  install_conda w = (Raise e, w1, t) ->
  fst (setup_env pv en w) = (Raise e, w1)
  /\ ~ In (create_cmd pv en) (spawned (snd (setup_env pv en w))).
Proof.
  intros E I. pose proof (install_conda_prelude w) as P.
  rewrite I in P. cbn [snd] in P.
  destruct (setup_env pv en w) as [[r w'] evs] eqn:Q. revert Q.
  rewrite setup_env_phases. unfold ensure_conda; unfold_m.
  rewrite (check_conda_missing _ E). cbn. rewrite I. cbn.
  intros [= <- <- <-]. split; [reflexivity|].
  intros J. apply in_spawned in J. destruct J as [o J].
  repeat (destruct J as [J|J]; [discriminate|]).
  exact (prelude_not_creation _ _ _ _ P J).
Qed.

Lemma setup_env_split pv en w :
  (forall ev, In ev (snd (setup_env pv en w)) -> ~ late_event pv en ev)
  \/ exists t c w1,
      Forall prelude_event t /\ returncode c = 0
      /\ snd (setup_env pv en w)
         = (t ++ creating pv en :: EvSpawn (create_cmd pv en) (Some c)
              :: created en :: snd (locate_and_relink en w1))%list
      /\ fst (fst (setup_env pv en w))
         = fst (fst (locate_and_relink en w1)).
Proof.
  assert (Q : forall t ev, Forall prelude_event t -> In ev t ->
                           ~ late_event pv en ev).
  { intros t ev P J [NP _]. rewrite Forall_forall in P. exact (NP (P _ J)). }
  rewrite setup_env_phases.
  pose proof (ensure_conda_prelude w) as P.
  destruct (bind_cases ensure_conda
              (fun _ => create_env pv en ;; locate_and_relink en) w)
    as [([] & w0 & _ & -> & ->)|(e & _ & -> & ->)];
    [|left; intros ev J; exact (Q _ _ P J)].
  destruct (bind_cases (create_env pv en)
              (fun _ => locate_and_relink en) w0)
    as [([] & w1 & C & -> & ->)|(e & C & -> & ->)];
    rewrite create_env_run in C |- *;
    destruct (spawn w0 (create_cmd pv en)) as [[c w2]|];
    try destruct (returncode c =? 0) eqn:Z0; cbn in C; try discriminate.
  - injection C as ->. apply Z.eqb_eq in Z0.
    right. exists (snd (ensure_conda w)), c, w1. cbn. auto.
  - left. intros ev J. apply in_app_or in J. cbn in J.
    destruct J as [J|[<-|[<-|[<-|[<-|[]]]]]];
      [exact (Q _ _ P J)|intros [_ L]; cbn in L; congruence..].
  - left. intros ev J. apply in_app_or in J. cbn in J.
    destruct J as [J|[<-|[<-|[]]]];
      [exact (Q _ _ P J)|intros [_ L]; cbn in L; congruence..].
Qed.

Lemma locate_and_relink_pip en w c :
  In (EvSpawn ["pip"; "--version"] (Some c)) (snd (locate_and_relink en w)) ->
  fst (fst (locate_and_relink en w)) = Ok tt.
Proof.
  unfold locate_and_relink, relink, query_base_dir; unfold_m.
  unfold subprocess_run, python_version_cmd.
  destruct (spawn w conda_info_base_cmd) as [[c0 w1]|]; cbn.
  2:{ intros [D|[]]; discriminate. }
  destruct (returncode c0 =? 0); cbn.
  2:{ intros [D|[D|[]]]; discriminate. }
  destruct (os_which w1 "python") as [python_path|]; cbn.
  2:{ intros [D|[D|[]]]; discriminate. }
  pose proof (run_commands_run
                (relink_commands (PyStr.strip (stdout c0)) en python_path)
                w1) as L.
  destruct (run_commands _ w1) as [[[[]|e] w2] t]; cbn in L |- *.
  2:{ intros [D|[D|[D|J]]]; try discriminate.
      now apply (loop_spawn _ _ _ _ _ L), relink_commands_mutate in J. }
  assert (N : ~ In (EvSpawn ["pip"; "--version"] (Some c)) t).
  { intros J.
    now apply (loop_spawn _ _ _ _ _ L), relink_commands_mutate in J. }
  destruct (spawn w2 ["python"; "--version"]) as [[c1 w3]|]; cbn.
  2:{ intros [D|[D|[D|J]]]; try discriminate.
      apply in_app_or in J. destruct J as [J|J]; [now apply N in J|].
      repeat (destruct J as [D|J]; [discriminate|]). contradiction. }
  destruct (spawn w3 ["pip"; "--version"]) as [[c2 w4]|]; cbn; [reflexivity|].
  intros [D|[D|[D|J]]]; try discriminate.
  apply in_app_or in J. destruct J as [J|J]; [now apply N in J|].
  repeat (destruct J as [D|J]; [discriminate|]). contradiction.
Qed.

(** X17. The two version queries that close [setup_env] are not checked:
    in every run where [pip --version] was started, [setup_env] returns
    normally, whatever return code the query reports. *)
Theorem setup_env_ignores_version_checks pv en w c :
  In (EvSpawn ["pip"; "--version"] (Some c)) (snd (setup_env pv en w)) ->
  fst (fst (setup_env pv en w)) = Ok tt.
Proof.
  intros I.
  assert (L : late_event pv en (EvSpawn ["pip"; "--version"] (Some c))).
  { split; cbn; [intros [D|[exe D]]|]; discriminate. }
  destruct (setup_env_split pv en w) as [N|(t & c0 & w1 & P & _ & E & ->)].
  { now apply N in I. }
  rewrite E in I. apply in_app_or in I.
  destruct I as [I|[D|[D|[D|I]]]]; try discriminate.
  - rewrite Forall_forall in P. apply P in I. now destruct L.
  - exact (locate_and_relink_pip _ _ _ I).
Qed.

(** *** The command runner, beyond the claims *)


(** X19. A [CONDA_DEFAULT_ENV] that is set to the empty string counts as
    not set: [EnvironmentError] is raised and no path is tested. *)
Theorem run_library_command_empty_env w cmd_name args c w1 :
  os_which w cmd_name = None ->
  spawn w conda_info_base_cmd = Some (c, w1) ->
  returncode c = 0 ->
  os_getenv w1 "CONDA_DEFAULT_ENV" = Some ""%string ->
  run_library_command cmd_name args w
  = (Raise (EnvironmentError env_unset_msg), w1,
     [attempt_event cmd_name args; EvWhich cmd_name None;
      EvSpawn conda_info_base_cmd (Some c);
      EvGetenv "CONDA_DEFAULT_ENV" (Some ""%string);
      EvPrint [PStr env_unset_msg]]).
Proof.
  intros E S Z0 G. unfold run_library_command; unfold_m. missing E.
  rewrite (query_base_dir_ok _ _ _ S Z0). now rewrite G.
Qed.

Lemma join2_absolute (path b : string) :
  PyStr.startswith_sep b = true -> PyStr.join2 path b = b.
Proof. intros A. unfold PyStr.join2. now rewrite A. Qed.

Lemma cmd_path_of_absolute_name base_dir env cmd_name :
  PyStr.startswith_sep cmd_name = true ->
  cmd_path base_dir env cmd_name = cmd_name.
Proof.
  intros A. unfold cmd_path, PyStr.path_join. cbn [fold_left].
  now apply join2_absolute.
Qed.

Lemma env_bin_of_prefix base_dir env :
  PyStr.startswith_sep env = true ->
  env_bin base_dir env = PyStr.path_join env ["bin"].
Proof.
  intros A. unfold env_bin, PyStr.path_join. cbn [fold_left].
  now rewrite (join2_absolute _ env A).
Qed.

(** X20. How the fallback path is joined.  A command name that starts
    with a slash is its own fallback path: base directory and environment
    play no part.  An environment name that starts with a slash (a prefix
    path) makes the base directory irrelevant: the command is looked for in
    the [bin] of that prefix. *)
Theorem cmd_path_absolute base_dir env cmd_name :
  (PyStr.startswith_sep cmd_name = true ->
   cmd_path base_dir env cmd_name = cmd_name)
  /\
  (PyStr.startswith_sep env = true ->
   env_bin base_dir env = PyStr.path_join env ["bin"]
   /\ cmd_path base_dir env cmd_name = PyStr.path_join env ["bin"; cmd_name]).
Proof.
  split; intros A.
  - now apply cmd_path_of_absolute_name.
  - pose proof (env_bin_of_prefix base_dir env A) as B.
    split; [exact B|]. unfold cmd_path. now rewrite B.
Qed.

(** X21. With a command name that starts with a slash and does not pass
    the lookup, the fallback of [run_library_command] looks nowhere in the
    active environment: the one path it tests is the command name itself,
    and besides the base-directory query the one command line it can start
    is that name with the arguments given. *)
Theorem run_library_command_absolute_name w cmd_name args c w1 env :
  PyStr.startswith_sep cmd_name = true ->
  os_which w cmd_name = None ->
  spawn w conda_info_base_cmd = Some (c, w1) ->
  returncode c = 0 ->
  os_getenv w1 "CONDA_DEFAULT_ENV" = Some env ->
  env <> ""%string ->
  In (EvExists cmd_name (os_path_exists w1 cmd_name))
     (snd (run_library_command cmd_name args w))
  /\ (forall path b,
         In (EvExists path b) (snd (run_library_command cmd_name args w)) ->
         path = cmd_name)
  /\ (forall argv,
         In argv (spawned (snd (run_library_command cmd_name args w))) ->
         argv = conda_info_base_cmd \/ argv = cmd_name :: args).
Proof.
  intros A E S Z0 G NE.
  rewrite (run_in_env _ cmd_name args _ _ _ E S Z0 G NE).
  rewrite (cmd_path_of_absolute_name _ _ _ A).
  destruct (os_path_exists w1 cmd_name);
    [destruct (spawn w1 (cmd_name :: args)) as [[c2 w2]|]|]; cbn;
    (split; [now auto 10|]);
    (split; [intros path b I; repeat destruct I as [I|I];
             discriminate || (now injection I) || contradiction|]);
    intros argv I; repeat destruct I as [I|I]; auto; contradiction.
Qed.

(** *** The loop over the commands, as a sequence *)



End Properties.

(** ** The properties on concrete machines *)

Section Machines.

Import Toy.

Ltac seen := vm_compute; repeat first [left; reflexivity | right].

Lemma probes_report_absence_witness :
  check_conda bare
  = (Ok false, bare,
     [EvWhich "conda" None; EvPrint [PStr "❌ Conda is not installed."]])
  /\ check_python bare
     = (Ok false, bare,
        [EvWhich "python" None; EvWhich "python3" None;
         EvPrint [PStr "❌ Python is not installed."]]).
Proof.
  split.
  - apply (proj1 (probes_report_absence bare)). reflexivity.
  - apply (proj2 (probes_report_absence bare)); reflexivity.
Defined.

Lemma probes_degraded_still_true_witness :
  fst (fst (check_conda degraded)) = Ok true
  /\ fst (fst (check_python degraded)) = Ok true.
Proof.
  assert (NZ : returncode broken <> 0) by (vm_compute; discriminate).
  split.
  - rewrite (proj1 (probes_degraded_still_true
                      degraded conda_file broken degraded NZ));
      reflexivity.
  - rewrite (proj2 (probes_degraded_still_true
                      degraded colab_python broken degraded NZ));
      [reflexivity|left; reflexivity|reflexivity].
Defined.


Lemma run_library_command_direct_witness :
  run_library_command "ls" ["-l"] ls_fails
  = (Ok tt, ls_fails,
     [attempt_event "ls" ["-l"]; EvWhich "ls" (Some "/bin/ls");
      EvSpawn ["ls"; "-l"] (Some (mkCompleted 2 "" ""))])
  /\ reads_env (snd (run_library_command "ls" ["-l"] ls_fails)) = false
  /\ spawned (snd (run_library_command "ls" ["-l"] ls_fails)) = [["ls"; "-l"]].
Proof.
  apply (run_library_command_direct ls_fails "ls" ["-l"] "/bin/ls");
    reflexivity.
Defined.

Lemma run_library_command_no_active_env_witness :
  fst (fst (run_library_command "gdown" ["--version"] colab))
  = Raise (EnvironmentError env_unset_msg)
  /\ probes_files (snd (run_library_command "gdown" ["--version"] colab))
     = false.
Proof.
  destruct (run_library_command_no_active_env
              colab "gdown" ["--version"] base_answer colab)
    as (R & _ & F); [reflexivity..|].
  split; [now rewrite R|exact F].
Defined.

(** C4 as first stated fails: the command is not on the search path and
    [CONDA_DEFAULT_ENV] is not set, yet what is raised is the
    [CalledProcessError] of the failed base-directory query, which is no
    [OSError]. *)
Lemma no_active_env_counterexample :
  os_which info_fails "gdown" = None
  /\ os_getenv info_fails "CONDA_DEFAULT_ENV" = None
  /\ fst (fst (run_library_command "gdown" ["--version"] info_fails))
     = Raise (CalledProcessError 1 conda_info_base_cmd)
  /\ isinstance_OSError (CalledProcessError 1 conda_info_base_cmd) = false.
Proof. repeat split; reflexivity. Qed.



Lemma run_library_command_ignores_exit_status_witness :
  fst (run_library_command "ls" ["-l"] ls_fails) = (Ok tt, ls_fails)
  /\ fst (run_library_command "gdown" ["--version"] activated)
     = (Ok tt, activated).
Proof.
  split.
  - apply (proj1 (run_library_command_ignores_exit_status
                    ls_fails "ls" ["-l"] (mkCompleted 2 "" "") ls_fails)
                 "/bin/ls"); reflexivity.
  - apply (proj2 (run_library_command_ignores_exit_status
                    activated "gdown" ["--version"] (mkCompleted 3 "" "")
                    activated)
                 base_answer activated "gconda");
      try reflexivity. discriminate.
Defined.

Lemma fix_conda_logs_final_failure_witness :
  fst (fst (fix_conda degraded)) = Ok tt
  /\ last (snd (fix_conda degraded)) (EvPrint [])
     = EvPrint [PStr still_broken_msg].
Proof.
  pose (w2 := remove_file conda_file degraded).
  pose (w3 := add_file conda_file w2).
  rewrite (fix_conda_logs_final_failure
             degraded conda_file broken degraded (mkCompleted 0 "" "") w2 w3
             (snd (install_conda w2)) broken w3);
    [split; reflexivity|try reflexivity; vm_compute; discriminate ..].
Defined.

Lemma setup_env_creation_failure_witness :
  fst (fst (setup_env "3.10" "gconda" create_fails))
  = Raise (RuntimeError create_failed_msg)
  /\ symlink_mutations (snd (setup_env "3.10" "gconda" create_fails)) = [].
Proof.
  destruct (setup_env_creation_failure
              "3.10" "gconda" create_fails
              (mkCompleted 1 "" "PackagesNotFound"))
    as (R & N & _); [seen|vm_compute; discriminate|].
  split; assumption.
Defined.

Lemma setup_env_relinks_witness :
  fst (fst (setup_env "3.10" "gconda" link_denied))
  = Raise (RuntimeError
             (command_failed_msg (link_cmd gconda_python colab_python)))
  /\ os_path_exists (snd (fst (setup_env "3.10" "gconda" link_denied)))
                    colab_python = false.
Proof.
  split; [|reflexivity].
  destruct (setup_env_relinks
              "3.10" "gconda" link_denied (mkCompleted 0 "" "") base_answer
              colab_python)
    as (_ & _ & _ & F); [seen|reflexivity|seen|reflexivity|seen|].
  destruct (F (link_cmd gconda_python colab_python) denied) as [R _];
    [seen|reflexivity|vm_compute; discriminate|].
  exact R.
Defined.

(** C2 as first stated fails: the creation exits with zero and [python]
    resolves, yet no command on the symlinks is run, because the query of
    the base directory fails first. *)
Lemma relinks_counterexample :
  In (EvSpawn (create_cmd "3.10" "gconda") (Some (mkCompleted 0 "" "")))
     (snd (setup_env "3.10" "gconda" info_fails))
  /\ os_which info_fails "python" = Some colab_python
  /\ symlink_mutations (snd (setup_env "3.10" "gconda" info_fails)) = []
  /\ fst (fst (setup_env "3.10" "gconda" info_fails))
     = Raise (CalledProcessError 1 conda_info_base_cmd).
Proof. split; [seen|]. repeat split; reflexivity. Qed.

(** *** The further properties on concrete machines *)



Lemma install_conda_pip_failure_witness :
  fst (fst (install_conda pip_fails))
  = Raise (CalledProcessError 1 pip_condacolab).
Proof.
  rewrite (install_conda_pip_failure pip_fails broken pip_fails);
    [reflexivity|reflexivity|reflexivity|vm_compute; discriminate].
Defined.


Lemma install_conda_success_witness :
  (exists p, os_which uninstalled "conda" = Some p)
  \/ (In EvCondacolabInstall (snd (install_conda uninstalled))
      /\ last (snd (install_conda uninstalled)) (EvPrint [])
         = install_complete).
Proof. apply install_conda_success. reflexivity. Defined.

Lemma fix_conda_absent_delegates_witness :
  fst (fix_conda uninstalled) = fst (install_conda uninstalled)
  /\ symlink_mutations (snd (fix_conda uninstalled)) = [].
Proof.
  destruct (fix_conda_absent_delegates uninstalled) as (R & _ & N);
    [reflexivity|].
  split; assumption.
Defined.

Lemma fix_conda_working_is_readonly_witness :
  fst (fix_conda colab) = (Ok tt, colab)
  /\ spawned (snd (fix_conda colab)) = [conda_version_cmd].
Proof.
  destruct (fix_conda_working_is_readonly
              colab conda_file (mkCompleted 0 "" "") colab)
    as (R & S & _); [reflexivity..|].
  split; assumption.
Defined.

Lemma fix_conda_removal_failure_witness :
  fst (fix_conda rm_denied)
  = (Raise (CalledProcessError 1 (remove_cmd conda_file)), rm_denied).
Proof.
  rewrite (fix_conda_removal_failure
             rm_denied conda_file broken rm_denied denied rm_denied);
    [reflexivity|reflexivity|reflexivity|vm_compute; discriminate
    |reflexivity|vm_compute; discriminate].
Defined.

Lemma setup_env_python_missing_witness :
  fst (fst (setup_env "3.10" "gconda" only_python3)) = Raise python_not_found
  /\ symlink_mutations (snd (setup_env "3.10" "gconda" only_python3)) = [].
Proof.
  destruct (setup_env_python_missing "3.10" "gconda" only_python3)
    as (R & N & _); [seen|].
  split; assumption.
Defined.

Lemma setup_env_base_query_failure_witness :
  fst (fst (setup_env "3.10" "gconda" info_fails))
  = Raise (CalledProcessError 1 conda_info_base_cmd)
  /\ symlink_mutations (snd (setup_env "3.10" "gconda" info_fails)) = [].
Proof.
  destruct (setup_env_base_query_failure "3.10" "gconda" info_fails broken)
    as (R & N & _); [seen|vm_compute; discriminate|].
  split; assumption.
Defined.

Lemma setup_env_mutates_only_when_ready_witness :
  exists c_create c_info python_path,
    In (EvSpawn (create_cmd "3.10" "gconda") (Some c_create))
       (snd (setup_env "3.10" "gconda" link_denied))
    /\ returncode c_create = 0
    /\ In (EvSpawn conda_info_base_cmd (Some c_info))
          (snd (setup_env "3.10" "gconda" link_denied))
    /\ returncode c_info = 0
    /\ In (EvWhich "python" (Some python_path))
          (snd (setup_env "3.10" "gconda" link_denied))
    /\ In (link_cmd gconda_python colab_python)
          (relink_commands (PyStr.strip (stdout c_info)) "gconda" python_path).
Proof.
  apply (setup_env_mutates_only_when_ready
           "3.10" "gconda" link_denied (link_cmd gconda_python colab_python)
           (Some denied)); [seen|reflexivity].
Defined.

Lemma setup_env_success_witness :
  exists c_create c_info python_path,
    In (EvSpawn (create_cmd "3.10" "gconda") (Some c_create))
       (snd (setup_env "3.10" "gconda" colab))
    /\ returncode c_create = 0
    /\ In (EvSpawn conda_info_base_cmd (Some c_info))
          (snd (setup_env "3.10" "gconda" colab))
    /\ returncode c_info = 0
    /\ In (EvWhich "python" (Some python_path))
          (snd (setup_env "3.10" "gconda" colab))
    /\ symlink_mutations (snd (setup_env "3.10" "gconda" colab))
       = relink_commands (PyStr.strip (stdout c_info)) "gconda" python_path
    /\ all_zero is_symlink_mutation (snd (setup_env "3.10" "gconda" colab)).
Proof. apply setup_env_success. reflexivity. Defined.

Lemma setup_env_install_failure_witness :
  fst (setup_env "3.10" "gconda" install_raises)
  = (Raise kernel_error, install_raises)
  /\ ~ In (create_cmd "3.10" "gconda")
          (spawned (snd (setup_env "3.10" "gconda" install_raises))).
Proof.
  apply (setup_env_install_failure
           "3.10" "gconda" install_raises kernel_error install_raises
           (snd (install_conda install_raises))); reflexivity.
Defined.

Lemma setup_env_ignores_version_checks_witness :
  fst (fst (setup_env "3.10" "gconda" pip_check_fails)) = Ok tt.
Proof.
  apply (setup_env_ignores_version_checks
           "3.10" "gconda" pip_check_fails broken). seen.
Defined.


Lemma run_library_command_empty_env_witness :
  fst (fst (run_library_command "gdown" ["--version"] env_empty))
  = Raise (EnvironmentError env_unset_msg).
Proof.
  rewrite (run_library_command_empty_env
             env_empty "gdown" ["--version"] base_answer env_empty);
    reflexivity.
Defined.

Lemma cmd_path_absolute_witness :
  cmd_path "/usr/local" "gconda" "/bin/ls" = "/bin/ls"%string
  /\ cmd_path "/usr/local" "/opt/env" "gdown" = "/opt/env/bin/gdown"%string.
Proof.
  split.
  - apply (proj1 (cmd_path_absolute "/usr/local" "gconda" "/bin/ls")).
    reflexivity.
  - destruct (proj2 (cmd_path_absolute "/usr/local" "/opt/env" "gdown"))
      as [_ T]; [reflexivity|].
    rewrite T. reflexivity.
Defined.

Lemma run_library_command_absolute_name_witness :
  In (EvExists "/opt/tools/gdown" false)
     (snd (run_library_command "/opt/tools/gdown" ["--version"] activated)).
Proof.
  destruct (run_library_command_absolute_name
              activated "/opt/tools/gdown" ["--version"] base_answer
              activated "gconda")
    as [T _]; [reflexivity..|discriminate|].
  exact T.
Defined.

End Machines.
